(** * first_try.py: the Gemini vision extractor script

    A shallow embedding of [src/first_try.py] and the properties of its
    pipeline: API-key lookup, per-image extraction with failure isolation,
    code-fence stripping, JSON normalisation, flattening and Excel export.

    Python values are modelled as the script sees them:
    - a [str] is a sequence of Unicode code points ([list N]), so that
      iterating a string yields its characters one by one;
    - the value returned by [json.loads] is a tree of dicts (association
      lists in insertion order), lists, strings, ints, floats, bools and
      [None];
    - an exception is a value of [exn]; code that may raise returns a
      [result];
    - calls that leave the process (PIL, the Gemini client, [json.loads],
      the openpyxl writer) are inputs or section variables. *)

From Stdlib Require Import String Ascii List NArith ZArith Bool Lia Arith.
Import ListNotations.

Set Warnings "-register-all".

(** ** Python strings *)

Definition pystr := list N.

(** ASCII literal of the source as a code-point sequence. *)
Definition lit (s : string) : pystr :=
  map N_of_ascii (list_ascii_of_string s).

(** [a == b] *)
Fixpoint pystr_eqb (a b : pystr) : bool :=
  match a, b with
  | [], [] => true
  | x :: a', y :: b' => N.eqb x y && pystr_eqb a' b'
  | _, _ => false
  end.

Definition NL : N := 10%N.

(** [s.startswith(p)] and the rest of [s] after [p]. *)
Fixpoint strip_prefix (p s : pystr) : option pystr :=
  match p, s with
  | [], _ => Some s
  | a :: p', b :: s' => if N.eqb a b then strip_prefix p' s' else None
  | _ :: _, [] => None
  end.

(** [str.isspace] on one code point (CPython's [_PyUnicode_IsWhitespace]). *)
Definition isspace (c : N) : bool :=
  ((9 <=? c) && (c <=? 13) || (28 <=? c) && (c <=? 32)
   || (c =? 133) || (c =? 160) || (c =? 5760)
   || (8192 <=? c) && (c <=? 8202)
   || (c =? 8232) || (c =? 8233) || (c =? 8239) || (c =? 8287)
   || (c =? 12288))%N.

Fixpoint lstrip (s : pystr) : pystr :=
  match s with
  | [] => []
  | c :: s' => if isspace c then lstrip s' else s
  end.

Definition rstrip (s : pystr) : pystr := rev (lstrip (rev s)).

(** [s.strip()] *)
Definition strip (s : pystr) : pystr := rstrip (lstrip s).

(** [sep.join(parts)] for parts that are all [str]. *)
Fixpoint str_join (sep : pystr) (parts : list pystr) : pystr :=
  match parts with
  | [] => []
  | [p] => p
  | p :: rest => p ++ sep ++ str_join sep rest
  end.

(** ** The fence pattern

    [re.sub(r"^```(?:json)?|```$", "", text, flags=re.MULTILINE)].

    With [re.MULTILINE], [^] holds at the start of the text and right after
    every line feed, [$] at the end of the text and right before every line
    feed.  The engine scans left to right; at each position it tries the
    first alternative, then the second; a match is deleted and scanning
    resumes behind it; otherwise the character is kept. *)

Definition FENCE : pystr := Eval cbv in lit "```".
Definition JSON_TAG : pystr := Eval cbv in lit "json".

(** [at_eol s]: [$] holds in front of the remaining text [s]. *)
Definition at_eol (s : pystr) : bool :=
  match s with
  | [] => true
  | c :: _ => N.eqb c NL
  end.

(** Length of the match of the pattern at the current position, where
    [bol] tells whether [^] holds here and [s] is the remaining text. *)
Definition fence_match (bol : bool) (s : pystr) : option nat :=
  match strip_prefix FENCE s with
  | None => None
  | Some rest =>
      if bol then
        match strip_prefix JSON_TAG rest with
        | Some _ => Some 7
        | None => Some 3
        end
      else if at_eol rest then Some 3 else None
  end.

(** The scan: [skip] counts the characters of a running match that are
    still to be deleted. *)
Fixpoint sub_fences_from (bol : bool) (skip : nat) (s : pystr) : pystr :=
  match s with
  | [] => []
  | c :: s' =>
      match skip with
      | S k => sub_fences_from false k s'
      | O =>
          match fence_match bol s with
          | Some (S k) => sub_fences_from false k s'
          | _ => c :: sub_fences_from (N.eqb c NL) 0 s'
          end
      end
  end.

Definition sub_fences (text : pystr) : pystr := sub_fences_from true 0 text.

(** [clean_text = re.sub(...).strip()] *)
Definition clean_text (text : pystr) : pystr := strip (sub_fences text).


(** ** Exceptions and results *)

(** The subclasses of [Exception] the script can meet.  [ValueError] stands
    for [json.JSONDecodeError]; [OtherError] for whatever PIL, the Gemini
    client or the Excel writer raise. *)
Inductive exn :=
| AttributeError
| TypeError
| ValueError
| OtherError (what : pystr).

Inductive result (A : Type) :=
| Ok (a : A)
| Raise (e : exn).

Arguments Ok {A} a.
Arguments Raise {A} e.

Definition bind {A B} (r : result A) (k : A -> result B) : result B :=
  match r with
  | Ok a => k a
  | Raise e => Raise e
  end.

Notation "x <- r ;; k" := (bind r (fun x => k))
  (at level 61, r at next level, right associativity).

(** ** Values returned by [json.loads] *)

(** A [dict] is an association list in insertion order (its keys are
    distinct, as Python keeps one binding per key); a float is kept as its
    IEEE-754 binary64 bit pattern, the script never computes with it. *)
Inductive json :=
| JNone
| JBool (b : bool)
| JInt (z : Z)
| JFloat (bits : N)
| JStr (s : pystr)
| JList (items : list json)
| JDict (kvs : list (pystr * json)).

Definition pydict := list (pystr * json).

(** [d[key]], with [None] when the key is absent. *)
Fixpoint dict_lookup (d : pydict) (key : pystr) : option json :=
  match d with
  | [] => None
  | (k, v) :: d' => if pystr_eqb k key then Some v else dict_lookup d' key
  end.

(** [d.get(key, default)] on a dict. *)
Definition dict_get (d : pydict) (key : pystr) (default : json) : json :=
  match dict_lookup d key with
  | Some v => v
  | None => default
  end.

(** [v.get(key, default)]: only a dict has the method. *)
Definition py_get (v : json) (key : pystr) (default : json) : result json :=
  match v with
  | JDict d => Ok (dict_get d key default)
  | _ => Raise AttributeError
  end.

(** [iter(v)]: a list yields its items, a str its characters, a dict its
    keys; the other values are not iterable. *)
Definition py_iter (v : json) : result (list json) :=
  match v with
  | JList items => Ok items
  | JStr s => Ok (map (fun c => JStr [c]) s)
  | JDict d => Ok (map (fun kv => JStr (fst kv)) d)
  | _ => Raise TypeError
  end.

(** [len(v)] *)
Definition py_len (v : json) : result nat :=
  match v with
  | JList items => Ok (length items)
  | JStr s => Ok (length s)
  | JDict d => Ok (length d)
  | _ => Raise TypeError
  end.

(** The items of a join must all be [str]. *)
Fixpoint expect_strs (items : list json) : result (list pystr) :=
  match items with
  | [] => Ok []
  | JStr s :: rest => l <- expect_strs rest ;; Ok (s :: l)
  | _ :: _ => Raise TypeError
  end.

(** [sep.join(v)] *)
Definition py_join (sep : pystr) (v : json) : result pystr :=
  items <- py_iter v ;;
  parts <- expect_strs items ;;
  Ok (str_join sep parts).

(** ** The flattener (lines 85-93) *)

Definition K_EstablishmentType : pystr := Eval cbv in lit "EstablishmentType".
Definition K_HostelName : pystr := Eval cbv in lit "HostelName".
Definition K_LocationDetails : pystr := Eval cbv in lit "LocationDetails".
Definition K_Landmark1 : pystr := Eval cbv in lit "Landmark1".
Definition K_Landmark2 : pystr := Eval cbv in lit "Landmark2".
Definition K_KeyService : pystr := Eval cbv in lit "KeyService".
Definition K_AccommodationOptions : pystr :=
  Eval cbv in lit "AccommodationOptions".
Definition K_ContactNumbers : pystr := Eval cbv in lit "ContactNumbers".
Definition COMMA_SPACE : pystr := Eval cbv in lit ", ".

Definition EMPTY : json := JStr [].

(** The dict literal bound to [flat_data]: its seven items are evaluated in
    source order, and the first one that raises aborts the literal. *)
Definition flat_data (entry : json) : result pydict :=
  establishment <- py_get entry K_EstablishmentType EMPTY ;;
  hostel <- py_get entry K_HostelName EMPTY ;;
  loc1 <- py_get entry K_LocationDetails (JDict []) ;;
  landmark1 <- py_get loc1 K_Landmark1 EMPTY ;;
  loc2 <- py_get entry K_LocationDetails (JDict []) ;;
  landmark2 <- py_get loc2 K_Landmark2 EMPTY ;;
  service <- py_get entry K_KeyService EMPTY ;;
  accommodation <- py_get entry K_AccommodationOptions EMPTY ;;
  numbers <- py_get entry K_ContactNumbers (JList []) ;;
  contacts <- py_join COMMA_SPACE numbers ;;
  Ok [ (K_EstablishmentType, establishment);
       (K_HostelName, hostel);
       (K_Landmark1, landmark1);
       (K_Landmark2, landmark2);
       (K_KeyService, service);
       (K_AccommodationOptions, accommodation);
       (K_ContactNumbers, JStr contacts) ].

(** ** API key (lines 16-21) *)

Definition GENAI_API_KEY : pystr := Eval cbv in lit "GENAI_API_KEY".
Definition GEMINI_API_KEY : pystr := Eval cbv in lit "GEMINI_API_KEY".
Definition GOOGLE_API_KEY : pystr := Eval cbv in lit "GOOGLE_API_KEY".
Definition API_KEY : pystr := Eval cbv in lit "API_KEY".

(** Truth value of what [os.getenv] returns: [None] and the empty string
    are false. *)
Definition truthy (v : option pystr) : bool :=
  match v with
  | Some (_ :: _) => true
  | _ => false
  end.

(** [a or b] *)
Definition py_or (a b : option pystr) : option pystr :=
  if truthy a then a else b.

Definition api_key (getenv : pystr -> option pystr) : option pystr :=
  py_or (getenv GENAI_API_KEY)
    (py_or (getenv GEMINI_API_KEY)
       (py_or (getenv GOOGLE_API_KEY) (getenv API_KEY))).

(** ** Table and workbook *)

(** A cell of a frame.  pandas stores a frame column by column and infers
    one dtype per column from all the values given for it (an int next to
    a missing value or to null is stored as a float, null as NaN, ...).
    That inference is pandas's own and is not modelled: a cell is named by
    what determines it, the values given for its column in row order
    ([None] where a record lacks the key) and the position of its row. *)
Inductive cell := Stored (given : list (option json)) (row : nat).

Record DataFrame := { columns : list pystr; rows : list (list cell) }.

Definition mem (k : pystr) (l : list pystr) : bool :=
  existsb (pystr_eqb k) l.

(** Keys of the records in order of first appearance. *)
Fixpoint union_keys (seen : list pystr) (records : list pydict) : list pystr :=
  match records with
  | [] => seen
  | d :: rest =>
      union_keys
        (fold_left (fun acc kv => if mem (fst kv) acc then acc
                                  else acc ++ [fst kv]) d seen)
        rest
  end.

(** [pd.DataFrame(records)] for a list of dicts: the columns are the keys in
    order of first appearance; there is one row per dict, in the order of
    the list, and the cell of row [i] in column [c] is what pandas stores
    at position [i] of the column given the values of all records under
    [c]. *)
Definition pd_DataFrame (records : list pydict) : DataFrame :=
  let cols := union_keys [] records in
  {| columns := cols;
     rows := map (fun i =>
                    map (fun c =>
                           Stored (map (fun d => dict_lookup d c) records) i)
                      cols)
               (seq 0 (length records)) |}.

Record sheet := {
  sheet_name : pystr;
  header : list pystr;
  body : list (list cell)
}.

Definition workbook := list sheet.
Definition bytes := list N.

(** [df.to_excel(writer, index=False, sheet_name=...)]: one sheet, a header
    row with the column names, then the rows; without the index column. *)
Definition to_excel (df : DataFrame) (name : pystr) : sheet :=
  {| sheet_name := name; header := columns df; body := rows df |}.

Definition SHEET_NAME : pystr := Eval cbv in lit "Extracted Data".
Definition FILE_NAME : pystr := Eval cbv in lit "Combined_Extracted_Data.xlsx".
Definition MIME : pystr :=
  Eval cbv in
    lit "application/vnd.openxmlformats-officedocument.spreadsheetml.sheet".
Definition NO_DATA : pystr :=
  Eval cbv in lit "No valid data was extracted from the uploaded images.".

(** ** What the user sees *)

Inductive effect :=
| St_title
| St_write
| St_info
| St_error_init (e : exn)
| St_stop
| St_success (count : nat) (name : pystr)
| St_warning (name : pystr) (e : exn)
| St_error (msg : pystr)
| St_subheader
| St_dataframe (df : DataFrame)
| St_download_button (data : bytes) (file_name mime : pystr)
| Uncaught (e : exn).

(** One uploaded file together with what the outside world answers for it:
    the outcome of [Image.open] and, if the request is sent, the outcome of
    [generate_content] followed by [response.text] (which may be [None]). *)
Record uploaded_image := {
  name : pystr;
  opened : result unit;
  response_text : result (option pystr)
}.

Section Pipeline.

(** [json.loads] *)
Variable json_loads : pystr -> result json.

(** The openpyxl writer: leaving the [with pd.ExcelWriter(...)] block
    serialises the workbook into [output]. *)
Variable save_workbook : workbook -> result bytes.

(** Lines 84-94: the entry loop.  Every record is appended to the shared
    list as soon as it is built. *)
Fixpoint append_entries (entries : list json) (all_data : list pydict)
  : list pydict * result unit :=
  match entries with
  | [] => (all_data, Ok tt)
  | entry :: rest =>
      match flat_data entry with
      | Ok fd => append_entries rest (all_data ++ [fd])
      | Raise e => (all_data, Raise e)
      end
  end.

(** Lines 81-82 *)
Definition normalize (parsed : json) : json :=
  match parsed with
  | JDict _ => JList [parsed]
  | _ => parsed
  end.

(** Lines 81-96: from the parsed value to the number shown in the success
    message. *)
Definition handle_parsed (parsed0 : json) (all_data : list pydict)
  : list pydict * result nat :=
  let parsed := normalize parsed0 in
  match py_iter parsed with
  | Raise e => (all_data, Raise e)
  | Ok entries =>
      match append_entries entries all_data with
      | (all_data', Raise e) => (all_data', Raise e)
      | (all_data', Ok _) => (all_data', py_len parsed)
      end
  end.

(** Lines 69-96: the body of the [try]. *)
Definition try_body (img : uploaded_image) (all_data : list pydict)
  : list pydict * result nat :=
  match opened img with
  | Raise e => (all_data, Raise e)
  | Ok _ =>
      match response_text img with
      | Raise e => (all_data, Raise e)
      | Ok None => (all_data, Raise TypeError)
      | Ok (Some text) =>
          match json_loads (clean_text text) with
          | Raise e => (all_data, Raise e)
          | Ok parsed => handle_parsed parsed all_data
          end
      end
  end.

Record state := { all_data : list pydict; log : list effect }.

(** Lines 68-99: one iteration of the image loop. *)
Definition process_image (st : state) (img : uploaded_image) : state :=
  match try_body img (all_data st) with
  | (d, Ok n) =>
      {| all_data := d; log := log st ++ [St_success n (name img)] |}
  | (d, Raise e) =>
      {| all_data := d; log := log st ++ [St_warning (name img) e] |}
  end.

(** Lines 65-99 *)
Definition process_images (imgs : list uploaded_image) : state :=
  fold_left process_image imgs {| all_data := []; log := [] |}.

(** Lines 102-119 *)
Definition export (data : list pydict) : list effect :=
  match data with
  | [] => [St_error NO_DATA]
  | _ :: _ =>
      let df := pd_DataFrame data in
      match save_workbook [to_excel df SHEET_NAME] with
      | Raise e => [Uncaught e]
      | Ok output =>
          [St_subheader; St_dataframe df;
           St_download_button output FILE_NAME MIME]
      end
  end.

(** Lines 64-119: what the button triggers. *)
Definition extract_all (imgs : list uploaded_image) : list effect :=
  let st := process_images imgs in
  log st ++ export (all_data st).

(** One run of the script: the environment, the uploaded files, what
    [genai.Client(api_key=...)] does with a key, and whether the button
    is pressed. *)
Record inputs := {
  getenv : pystr -> option pystr;
  uploaded_images : list uploaded_image;
  client : pystr -> result unit;
  button : bool
}.

(** The whole script. *)
Definition script (inp : inputs) : list effect :=
  [St_title; St_write] ++
  match uploaded_images inp, api_key (getenv inp) with
  | _ :: _, Some (c :: key) =>
      match client inp (c :: key) with
      | Raise e => [St_error_init e; St_stop]
      | Ok _ =>
          if button inp then extract_all (uploaded_images inp) else []
      end
  | _, _ => [St_info]
  end.

End Pipeline.

(** ** Vocabulary of the specification *)

(** The precedence order of the environment variables. *)
Definition KEY_VARIABLES : list pystr :=
  [GENAI_API_KEY; GEMINI_API_KEY; GOOGLE_API_KEY; API_KEY].

(** The value of the first variable, in the given order, that is set to a
    non-empty string. *)
Fixpoint first_non_empty (getenv : pystr -> option pystr)
  (vars : list pystr) : option pystr :=
  match vars with
  | [] => None
  | v :: rest =>
      match getenv v with
      | Some (c :: s) => Some (c :: s)
      | _ => first_non_empty getenv rest
      end
  end.

(** A response text wrapped in a markdown code fence: the opening marker
    (with the language tag [json] or without) on a line of its own before
    the text, the closing marker on a line of its own after it. *)
Definition fenced (tagged : bool) (text : pystr) : pystr :=
  (if tagged then FENCE ++ JSON_TAG else FENCE) ++ NL :: text ++ NL :: FENCE.

(** The columns of the output file, in order. *)
Definition COLUMNS : list pystr :=
  [K_EstablishmentType; K_HostelName; K_Landmark1; K_Landmark2;
   K_KeyService; K_AccommodationOptions; K_ContactNumbers].

(** [LocationDetails] is absent or a mapping, as a ParsedEntry has it. *)
Definition location_is_mapping (d : pydict) : bool :=
  match dict_lookup d K_LocationDetails with
  | None | Some (JDict _) => true
  | Some _ => false
  end.

(** The records of the entries that precede the first entry whose
    flattening raises (all of them if none raises). *)
Fixpoint flattened_prefix (entries : list json) : list pydict :=
  match entries with
  | [] => []
  | entry :: rest =>
      match flat_data entry with
      | Ok fd => fd :: flattened_prefix rest
      | Raise _ => []
      end
  end.

Definition is_success (e : effect) : bool :=
  match e with St_success _ _ => true | _ => false end.

Definition is_warning (e : effect) : bool :=
  match e with St_warning _ _ => true | _ => false end.

Definition is_download (e : effect) : bool :=
  match e with St_download_button _ _ _ => true | _ => false end.

Definition is_error (e : effect) : bool :=
  match e with St_error _ => true | _ => false end.

Definition is_image_message (e : effect) : bool :=
  is_success e || is_warning e.

(** What the export step (lines 102-119) can show. *)
Definition is_export (e : effect) : bool :=
  match e with
  | St_error _ | St_subheader | St_dataframe _
  | St_download_button _ _ _ | Uncaught _ => true
  | _ => false
  end.

Definition count (p : effect -> bool) (l : list effect) : nat :=
  length (filter p l).

Section Runs.

Variable json_loads : pystr -> result json.

(** The parsed entries of an image: the items the entry loop iterates
    over; none if the image fails before the loop. *)
Definition image_entries (img : uploaded_image) : list json :=
  match opened img, response_text img with
  | Ok _, Ok (Some text) =>
      match json_loads (clean_text text) with
      | Ok parsed =>
          match py_iter (normalize parsed) with
          | Ok entries => entries
          | Raise _ => []
          end
      | Raise _ => []
      end
  | _, _ => []
  end.

(** The image gets as far as the entry loop: it opens, the model answers
    with a text, the text parses and the parsed value can be iterated. *)
Definition reaches_loop (img : uploaded_image) : bool :=
  match opened img, response_text img with
  | Ok _, Ok (Some text) =>
      match json_loads (clean_text text) with
      | Ok parsed =>
          match py_iter (normalize parsed) with
          | Ok _ => true
          | Raise _ => false
          end
      | Raise _ => false
      end
  | _, _ => false
  end.

(** An image fails when the body of the [try] raises. *)
Definition failed (img : uploaded_image) : bool :=
  match snd (try_body json_loads img []) with
  | Ok _ => false
  | Raise _ => true
  end.

(** The message an image leaves in the page. *)
Definition image_message (img : uploaded_image) : effect :=
  match snd (try_body json_loads img []) with
  | Ok n => St_success n (name img)
  | Raise e => St_warning (name img) e
  end.

(** The rows an image leaves in the table. *)
Definition image_rows (img : uploaded_image) : list pydict :=
  flattened_prefix (image_entries img).

(** The number of rows the specification announces for a run: the parsed
    entries of the images that do not fail. *)
Definition announced_rows (imgs : list uploaded_image) : nat :=
  list_sum
    (map (fun img => length (image_entries img))
       (filter (fun img => negb (failed img)) imgs)).

End Runs.

(** ** Sample data *)

(** The entry of the specification's example. *)
Definition example_entry : json :=
  JDict [ (K_EstablishmentType, JStr (lit "Hostel"));
          (K_HostelName, JStr (lit "X"));
          (K_LocationDetails,
            JDict [ (K_Landmark1, JStr (lit "A"));
                    (K_Landmark2, JStr []) ]);
          (K_KeyService, JStr (lit "WiFi"));
          (K_AccommodationOptions, JStr (lit "Dorm"));
          (K_ContactNumbers, JList [JStr (lit "111"); JStr (lit "222")]) ].

Definition example_row : list json :=
  [ JStr (lit "Hostel"); JStr (lit "X"); JStr (lit "A"); JStr [];
    JStr (lit "WiFi"); JStr (lit "Dorm"); JStr (lit "111, 222") ].

(** [json.loads] on the few texts the sample runs use; any other text is
    answered with a decode error. *)
Definition sample_loads (text : pystr) : result json :=
  if pystr_eqb text (lit "{}") then Ok (JDict [])
  else if pystr_eqb text (lit "[{}]") then Ok (JList [JDict []])
  else if pystr_eqb text (lit "[{}, 5]") then Ok (JList [JDict []; JInt 5])
  else Raise ValueError.

(** A writer that accepts every workbook and produces no bytes. *)
Definition sample_writer (wb : workbook) : result bytes := Ok [].

Definition responding (nm text : string) : uploaded_image :=
  {| name := lit nm; opened := Ok tt; response_text := Ok (Some (lit text)) |}.

(** An image answered with a two-item array whose second item is a number. *)
Definition half_good : uploaded_image := responding "a.png" "```json
[{}, 5]
```".

(** An image answered with text that is not JSON. *)
Definition garbled : uploaded_image := responding "b.png" "sorry".

(** An image answered with one empty object. *)
Definition one_object : uploaded_image := responding "c.png" "{}".

Definition sample_inputs (imgs : list uploaded_image) : inputs :=
  {| getenv := fun k => if pystr_eqb k GEMINI_API_KEY
                        then Some (lit "k3y") else None;
     uploaded_images := imgs;
     client := fun _ => Ok tt;
     button := true |}.

(** ** Further vocabulary *)

(** The characters the fence pattern can delete: the backtick and the
    letters of the tag. *)
Definition deletable (c : N) : bool :=
  (N.eqb c 96 || N.eqb c 106 || N.eqb c 115 || N.eqb c 111 || N.eqb c 110)%bool.

(** The characters of [s] at the positions where [mask] is [true], in
    order. *)
Fixpoint select (mask : list bool) (s : pystr) : pystr :=
  match mask, s with
  | keep :: mask', c :: s' =>
      if keep then c :: select mask' s' else select mask' s'
  | _, _ => []
  end.

(** The keys of an entry the flattener reads. *)
Definition ENTRY_KEYS : list pystr :=
  [K_EstablishmentType; K_HostelName; K_LocationDetails; K_KeyService;
   K_AccommodationOptions; K_ContactNumbers].

Definition is_str (v : json) : bool :=
  match v with JStr _ => true | _ => false end.

(** The values [str.join] accepts: a list of strings, a string, a dict. *)
Definition joinable (v : json) : bool :=
  match v with
  | JList items => forallb is_str items
  | JStr _ | JDict _ => true
  | _ => false
  end.

(** The entry is a mapping whose [LocationDetails], if present, is a
    mapping. *)
Definition shape_ok (entry : json) : bool :=
  match entry with
  | JDict d => location_is_mapping d
  | _ => false
  end.

(** The entry is a mapping whose [ContactNumbers], if present, can be
    joined. *)
Definition contacts_ok (entry : json) : bool :=
  match entry with
  | JDict d => joinable (dict_get d K_ContactNumbers (JList []))
  | _ => false
  end.

(** The file a message is about. *)
Definition message_name (e : effect) : option pystr :=
  match e with
  | St_success _ nm | St_warning nm _ => Some nm
  | _ => None
  end.

(** Every marker in the text stands inside a line: it is preceded by a
    character other than a line feed and followed by one. *)
Definition markers_inside_lines (text : pystr) : Prop :=
  forall pre post,
    text = pre ++ FENCE ++ post ->
    exists pre' a b post',
      pre = pre' ++ [a] /\ a <> NL /\ post = b :: post' /\ b <> NL.

(** The same, decided by a scan that knows whether it is at a line
    start. *)
Fixpoint inside_lines (bol : bool) (s : pystr) : bool :=
  match s with
  | [] => true
  | c :: s' =>
      match strip_prefix FENCE s with
      | Some rest => negb bol && negb (at_eol rest)
      | None => true
      end && inside_lines (N.eqb c NL) s'
  end.

(** No leading white space. *)
Definition head_ok (s : pystr) : Prop :=
  match s with
  | [] => True
  | c :: _ => isspace c = false
  end.

(** [json.loads] on some further texts: the empty array, the empty string
    and a number. *)
Definition sample_loads_more (text : pystr) : result json :=
  if pystr_eqb text (lit "[]") then Ok (JList [])
  else if pystr_eqb text [34; 34]%N then Ok (JStr [])
  else if pystr_eqb text (lit "7") then Ok (JInt 7)
  else sample_loads text.

(** An image answered with an empty array. *)
Definition nothing_found : uploaded_image := responding "d.png" "[]".

(** An image answered with a bare number. *)
Definition just_a_number : uploaded_image := responding "e.png" "7".

(** * Properties *)

(** ** Flattening *)

Lemma pystr_eqb_refl (a : pystr) : pystr_eqb a a = true.
Proof.
  induction a as [|x a IH]; simpl; [reflexivity|].
  now rewrite N.eqb_refl, IH.
Qed.

Lemma pystr_eqb_eq (a b : pystr) : pystr_eqb a b = true <-> a = b.
Proof.
  split; [|intros ->; apply pystr_eqb_refl].
  revert b; induction a as [|x a IH]; intros [|y b]; simpl; try easy.
  rewrite andb_true_iff, N.eqb_eq. intros [-> H]. f_equal. now apply IH.
Qed.

(** C4: the entry of the specification's example flattens to the record
    whose seven values are "Hostel", "X", "A", "", "WiFi", "Dorm" and
    "111, 222", under the seven column names in order. *)
Theorem C4_example_entry_flattens :
  flat_data example_entry = Ok (combine COLUMNS example_row).
Proof. reflexivity. Qed.

Lemma api_key_first_non_empty (getenv : pystr -> option pystr) :
  match first_non_empty getenv KEY_VARIABLES with
  | Some key => api_key getenv = Some key /\ truthy (Some key) = true
  | None => truthy (api_key getenv) = false
  end.
Proof.
  unfold api_key, KEY_VARIABLES, py_or; simpl.
  destruct (getenv GENAI_API_KEY) as [[|c1 k1]|]; simpl; auto;
  destruct (getenv GEMINI_API_KEY) as [[|c2 k2]|]; simpl; auto;
  destruct (getenv GOOGLE_API_KEY) as [[|c3 k3]|]; simpl; auto;
  destruct (getenv API_KEY) as [[|c4 k4]|]; simpl; auto.
Qed.

(** C7: the key is looked up in GENAI_API_KEY, GEMINI_API_KEY,
    GOOGLE_API_KEY, API_KEY, in this order.  When one of them is set to a
    non-empty string, [api_key] is the value of the first such variable,
    and this is the key the client is created with.  When all are unset or
    empty, [api_key] is [None] or empty, no client is created and the page
    only asks for an upload. *)
Theorem C7_api_key_precedence
  (json_loads : pystr -> result json)
  (save_workbook : workbook -> result bytes) (inp : inputs) :
  match first_non_empty (getenv inp) KEY_VARIABLES with
  | Some key =>
      api_key (getenv inp) = Some key /\
      truthy (Some key) = true /\
      script json_loads save_workbook inp =
        [St_title; St_write] ++
        match uploaded_images inp with
        | [] => [St_info]
        | _ :: _ =>
            match client inp key with
            | Raise e => [St_error_init e; St_stop]
            | Ok _ =>
                if button inp
                then extract_all json_loads save_workbook (uploaded_images inp)
                else []
            end
        end
  | None =>
      truthy (api_key (getenv inp)) = false /\
      script json_loads save_workbook inp = [St_title; St_write; St_info]
  end.
Proof.
  pose proof (api_key_first_non_empty (getenv inp)) as H.
  destruct (first_non_empty (getenv inp) KEY_VARIABLES) as [key|].
  - destruct H as [Hkey Htrue]. repeat split; auto.
    unfold script. rewrite Hkey.
    destruct key as [|c key]; [discriminate|].
    now destruct (uploaded_images inp).
  - split; [exact H|]. unfold script.
    destruct (api_key (getenv inp)) as [[|c key]|]; try discriminate;
      now destruct (uploaded_images inp).
Qed.

(** Flattening a dict whose [LocationDetails] is absent or a mapping only
    depends on the join of the contact numbers. *)
Lemma flat_data_dict (d : pydict) :
  location_is_mapping d = true ->
  flat_data (JDict d) =
    (contacts <- py_join COMMA_SPACE (dict_get d K_ContactNumbers (JList [])) ;;
     Ok (combine COLUMNS
           [ dict_get d K_EstablishmentType EMPTY;
             dict_get d K_HostelName EMPTY;
             dict_get (match dict_get d K_LocationDetails (JDict []) with
                       | JDict l => l | _ => [] end) K_Landmark1 EMPTY;
             dict_get (match dict_get d K_LocationDetails (JDict []) with
                       | JDict l => l | _ => [] end) K_Landmark2 EMPTY;
             dict_get d K_KeyService EMPTY;
             dict_get d K_AccommodationOptions EMPTY;
             JStr contacts ])).
Proof.
  unfold location_is_mapping, flat_data. simpl. unfold dict_get.
  destruct (dict_lookup d K_LocationDetails) as [[]|]; try discriminate;
    reflexivity.
Qed.

(** A [LocationDetails] that is present and not a mapping has no [get]. *)
Lemma flat_data_bad_location (d : pydict) :
  location_is_mapping d = false -> flat_data (JDict d) = Raise AttributeError.
Proof.
  unfold location_is_mapping, flat_data. simpl. unfold dict_get.
  destruct (dict_lookup d K_LocationDetails) as [[]|]; try discriminate;
    reflexivity.
Qed.

Lemma contacts_column (d : pydict) (s : pystr) :
  dict_lookup
    (combine COLUMNS
       [ dict_get d K_EstablishmentType EMPTY;
         dict_get d K_HostelName EMPTY;
         dict_get (match dict_get d K_LocationDetails (JDict []) with
                   | JDict l => l | _ => [] end) K_Landmark1 EMPTY;
         dict_get (match dict_get d K_LocationDetails (JDict []) with
                   | JDict l => l | _ => [] end) K_Landmark2 EMPTY;
         dict_get d K_KeyService EMPTY;
         dict_get d K_AccommodationOptions EMPTY;
         JStr s ]) K_ContactNumbers = Some (JStr s).
Proof. reflexivity. Qed.

Lemma flat_data_contacts (d : pydict) (s : pystr) :
  location_is_mapping d = true ->
  py_join COMMA_SPACE (dict_get d K_ContactNumbers (JList [])) = Ok s ->
  exists fd, flat_data (JDict d) = Ok fd /\
             dict_lookup fd K_ContactNumbers = Some (JStr s).
Proof.
  intros Hloc Hjoin. rewrite (flat_data_dict _ Hloc), Hjoin. simpl bind.
  eexists; split; [reflexivity|apply contacts_column].
Qed.

Lemma expect_strs_map (parts : list pystr) :
  expect_strs (map JStr parts) = Ok parts.
Proof.
  induction parts as [|p parts IH]; simpl; [reflexivity|].
  now rewrite IH.
Qed.

Lemma py_join_list (sep : pystr) (parts : list pystr) :
  py_join sep (JList (map JStr parts)) = Ok (str_join sep parts).
Proof. unfold py_join, py_iter, bind. now rewrite expect_strs_map. Qed.

Lemma py_join_str (sep s : pystr) :
  py_join sep (JStr s) = Ok (str_join sep (map (fun c => [c]) s)).
Proof.
  unfold py_join, py_iter, bind.
  rewrite <- (map_map (fun c => [c]) JStr). now rewrite expect_strs_map.
Qed.

Lemma str_join_cons (sep p : pystr) (parts : list pystr) :
  str_join sep (p :: parts) = p ++ flat_map (fun q => sep ++ q) parts.
Proof.
  revert p; induction parts as [|q parts IH]; intros p.
  - simpl. now rewrite app_nil_r.
  - change (str_join sep (p :: q :: parts))
      with (p ++ sep ++ str_join sep (q :: parts)).
    rewrite IH. simpl. now rewrite <- app_assoc.
Qed.

(** C6, as amended: in an entry without the key [ContactNumbers] the join
    of the contact numbers does not raise and gives the empty string.
    Flattening itself succeeds when the [LocationDetails] of the entry is
    absent or a mapping: it then returns a record whose ContactNumbers
    column is the empty string; so does an empty sequence; and a sequence
    of strings [p :: parts] gives [p] followed by each further string
    preceded by ", ".  When [LocationDetails] is present and not a mapping
    flattening raises [AttributeError], whatever [ContactNumbers] is. *)
Theorem C6_contact_numbers_column (d : pydict) :
  (dict_lookup d K_ContactNumbers = None ->
   (numbers <- py_get (JDict d) K_ContactNumbers (JList []) ;;
    py_join COMMA_SPACE numbers) = Ok []) /\
  (location_is_mapping d = true ->
   (dict_lookup d K_ContactNumbers = None ->
    exists fd, flat_data (JDict d) = Ok fd /\
               dict_lookup fd K_ContactNumbers = Some (JStr [])) /\
   (dict_lookup d K_ContactNumbers = Some (JList []) ->
    exists fd, flat_data (JDict d) = Ok fd /\
               dict_lookup fd K_ContactNumbers = Some (JStr [])) /\
   (forall p parts,
    dict_lookup d K_ContactNumbers = Some (JList (map JStr (p :: parts))) ->
    exists fd, flat_data (JDict d) = Ok fd /\
               dict_lookup fd K_ContactNumbers =
                 Some (JStr (p ++ flat_map (fun q => COMMA_SPACE ++ q)
                                   parts)))) /\
  (location_is_mapping d = false ->
   flat_data (JDict d) = Raise AttributeError).
Proof.
  split; [|split].
  - intros H. simpl. unfold dict_get. now rewrite H.
  - intros Hloc. repeat split.
    + intros H. apply flat_data_contacts; [assumption|].
      unfold dict_get. now rewrite H.
    + intros H. apply flat_data_contacts; [assumption|].
      unfold dict_get. now rewrite H.
    + intros p parts H. apply flat_data_contacts; [assumption|].
      unfold dict_get. rewrite H, py_join_list. now rewrite str_join_cons.
  - apply flat_data_bad_location.
Qed.

(** C6, as stated, fails: the entry [{"LocationDetails": null}] has no
    [ContactNumbers], and flattening it raises [AttributeError] at the
    Landmark1 item, before the contact numbers are looked at. *)
Lemma C6_counterexample :
  dict_lookup [(K_LocationDetails, JNone)] K_ContactNumbers = None /\
  flat_data (JDict [(K_LocationDetails, JNone)]) = Raise AttributeError.
Proof. split; reflexivity. Qed.

Lemma C6_witness :
  (exists fd, flat_data (JDict []) = Ok fd /\
              dict_lookup fd K_ContactNumbers = Some (JStr [])) /\
  (exists fd, flat_data example_entry = Ok fd /\
              dict_lookup fd K_ContactNumbers = Some (JStr (lit "111, 222"))).
Proof.
  split.
  - exact (proj1 (proj1 (proj2 (C6_contact_numbers_column [])) eq_refl)
             eq_refl).
  - refine (proj2 (proj2 (proj1 (proj2 (C6_contact_numbers_column
             [ (K_EstablishmentType, JStr (lit "Hostel"));
               (K_HostelName, JStr (lit "X"));
               (K_LocationDetails,
                 JDict [ (K_Landmark1, JStr (lit "A"));
                         (K_Landmark2, JStr []) ]);
               (K_KeyService, JStr (lit "WiFi"));
               (K_AccommodationOptions, JStr (lit "Dorm"));
               (K_ContactNumbers,
                 JList [JStr (lit "111"); JStr (lit "222")]) ]))
             eq_refl)) (lit "111") [lit "222"] eq_refl).
Defined.

(** C9, as amended: when [ContactNumbers] is a bare string [s], the join
    iterates its characters and does not raise.  Flattening itself
    succeeds when the [LocationDetails] of the entry is absent or a
    mapping: it returns a record whose ContactNumbers column holds the
    characters of [s] joined by ", "; "123" becomes "1, 2, 3".  When
    [LocationDetails] is present and not a mapping flattening raises
    [AttributeError]. *)
Theorem C9_bare_string_contacts (d : pydict) (s : pystr) :
  dict_lookup d K_ContactNumbers = Some (JStr s) ->
  (numbers <- py_get (JDict d) K_ContactNumbers (JList []) ;;
   py_join COMMA_SPACE numbers) =
    Ok (str_join COMMA_SPACE (map (fun c => [c]) s)) /\
  (location_is_mapping d = true ->
   exists fd, flat_data (JDict d) = Ok fd /\
              dict_lookup fd K_ContactNumbers =
                Some (JStr (str_join COMMA_SPACE (map (fun c => [c]) s)))) /\
  str_join COMMA_SPACE (map (fun c => [c]) (lit "123")) = lit "1, 2, 3" /\
  (location_is_mapping d = false ->
   flat_data (JDict d) = Raise AttributeError).
Proof.
  intros H.
  assert (Hjoin : py_join COMMA_SPACE (dict_get d K_ContactNumbers (JList []))
                  = Ok (str_join COMMA_SPACE (map (fun c => [c]) s))).
  { unfold dict_get. rewrite H. apply py_join_str. }
  split; [exact Hjoin|]. split; [|split; [reflexivity|]].
  - intros Hloc. now apply flat_data_contacts.
  - apply flat_data_bad_location.
Qed.

(** C9, as stated, fails: in the entry
    [{"ContactNumbers": "123", "LocationDetails": "x"}] the contact
    numbers are a bare string, and flattening raises [AttributeError] at
    the Landmark1 item. *)
Lemma C9_counterexample :
  dict_lookup [ (K_ContactNumbers, JStr (lit "123"));
                (K_LocationDetails, JStr (lit "x")) ] K_ContactNumbers =
    Some (JStr (lit "123")) /\
  flat_data (JDict [ (K_ContactNumbers, JStr (lit "123"));
                     (K_LocationDetails, JStr (lit "x")) ]) =
    Raise AttributeError.
Proof. split; reflexivity. Qed.

Lemma C9_witness :
  exists fd, flat_data (JDict [(K_ContactNumbers, JStr (lit "123"))]) = Ok fd /\
             dict_lookup fd K_ContactNumbers = Some (JStr (lit "1, 2, 3")).
Proof.
  exact (proj1 (proj2 (C9_bare_string_contacts
                         [(K_ContactNumbers, JStr (lit "123"))] (lit "123")
                         eq_refl)) eq_refl).
Defined.

(** ** The image loop *)

Section LoopFacts.

Variable json_loads : pystr -> result json.

Lemma append_entries_spec (entries : list json) (data : list pydict) :
  fst (append_entries entries data) = data ++ flattened_prefix entries /\
  snd (append_entries entries data) = snd (append_entries entries []).
Proof.
  revert data; induction entries as [|entry rest IH]; intros data; simpl.
  - now rewrite app_nil_r.
  - destruct (flat_data entry) as [fd|e]; simpl.
    + destruct (IH (data ++ [fd])) as [-> ->].
      destruct (IH [fd]) as [_ ->].
      now rewrite <- app_assoc.
    + now rewrite app_nil_r.
Qed.

Lemma handle_parsed_spec (parsed : json) (data : list pydict) :
  handle_parsed parsed data =
    (data ++ fst (handle_parsed parsed []), snd (handle_parsed parsed [])).
Proof.
  unfold handle_parsed.
  destruct (py_iter (normalize parsed)) as [entries|e]; simpl.
  - destruct (append_entries_spec entries data) as [H1 H2].
    destruct (append_entries_spec entries []) as [H3 _].
    destruct (append_entries entries data) as [d r].
    destruct (append_entries entries []) as [d0 r0].
    simpl in *. subst. destruct r0; reflexivity.
  - now rewrite app_nil_r.
Qed.

Lemma handle_parsed_rows (parsed : json) :
  fst (handle_parsed parsed []) =
    match py_iter (normalize parsed) with
    | Ok entries => flattened_prefix entries
    | Raise _ => []
    end.
Proof.
  unfold handle_parsed.
  destruct (py_iter (normalize parsed)) as [entries|e]; [|reflexivity].
  destruct (append_entries_spec entries []) as [H _].
  destruct (append_entries entries []) as [d [u|e]]; exact H.
Qed.

Lemma try_body_spec (img : uploaded_image) (data : list pydict) :
  try_body json_loads img data =
    (data ++ image_rows json_loads img, snd (try_body json_loads img [])).
Proof.
  unfold try_body, image_rows, image_entries.
  destruct (opened img) as [u|e]; [|now rewrite app_nil_r].
  destruct (response_text img) as [[text|]|e]; try now rewrite app_nil_r.
  destruct (json_loads (clean_text text)) as [parsed|e];
    [|now rewrite app_nil_r].
  rewrite handle_parsed_spec, handle_parsed_rows.
  now destruct (py_iter (normalize parsed)).
Qed.

Lemma process_image_spec (st : state) (img : uploaded_image) :
  process_image json_loads st img =
    {| all_data := all_data st ++ image_rows json_loads img;
       log := log st ++ [image_message json_loads img] |}.
Proof.
  unfold process_image, image_message. rewrite try_body_spec. simpl.
  destruct (snd (try_body json_loads img [])); reflexivity.
Qed.

Lemma fold_process_image (imgs : list uploaded_image) (st : state) :
  fold_left (process_image json_loads) imgs st =
    {| all_data := all_data st ++ flat_map (image_rows json_loads) imgs;
       log := log st ++ map (image_message json_loads) imgs |}.
Proof.
  revert st; induction imgs as [|img imgs IH]; intros st; simpl.
  - rewrite !app_nil_r. now destruct st.
  - rewrite IH, process_image_spec. simpl. now rewrite <- !app_assoc.
Qed.

Lemma process_images_spec (imgs : list uploaded_image) :
  process_images json_loads imgs =
    {| all_data := flat_map (image_rows json_loads) imgs;
       log := map (image_message json_loads) imgs |}.
Proof. unfold process_images. now rewrite fold_process_image. Qed.

End LoopFacts.

Section FailureIsolation.

Variable json_loads : pystr -> result json.

Lemma flattened_prefix_length (entries : list json) :
  match snd (append_entries entries []) with
  | Ok _ => length (flattened_prefix entries) = length entries
  | Raise _ => length (flattened_prefix entries) < length entries
  end.
Proof.
  induction entries as [|entry rest IH]; simpl; [reflexivity|].
  destruct (flat_data entry) as [fd|e]; simpl; [|lia].
  destruct (append_entries_spec rest [fd]) as [_ ->].
  destruct (snd (append_entries rest [])); simpl; lia.
Qed.

Lemma handle_parsed_outcome (parsed : json) :
  snd (handle_parsed parsed []) =
    match py_iter (normalize parsed) with
    | Raise e => Raise e
    | Ok entries =>
        match snd (append_entries entries []) with
        | Raise e => Raise e
        | Ok _ => py_len (normalize parsed)
        end
    end.
Proof.
  unfold handle_parsed.
  destruct (py_iter (normalize parsed)) as [entries|e]; [|reflexivity].
  now destruct (append_entries entries []) as [d [u|e]].
Qed.

Lemma py_len_iter (v : json) (entries : list json) :
  py_iter v = Ok entries -> py_len v = Ok (length entries).
Proof.
  destruct v; simpl; try discriminate; intros [= <-];
    now rewrite ?length_map.
Qed.

(** An image that does not fail leaves one row per parsed entry and
    announces their number. *)
Lemma success_rows (img : uploaded_image) :
  failed json_loads img = false ->
  length (image_rows json_loads img) =
    length (image_entries json_loads img) /\
  image_message json_loads img =
    St_success (length (image_entries json_loads img)) (name img).
Proof.
  unfold failed, image_message, image_rows, image_entries, try_body.
  destruct (opened img) as [u|e]; [|discriminate].
  destruct (response_text img) as [[text|]|e]; try discriminate.
  destruct (json_loads (clean_text text)) as [parsed|e]; [|discriminate].
  rewrite handle_parsed_outcome.
  destruct (py_iter (normalize parsed)) as [entries|e] eqn:Hit;
    [|discriminate].
  pose proof (flattened_prefix_length entries) as Hlen.
  destruct (snd (append_entries entries [])) as [u'|e]; [|discriminate].
  rewrite (py_len_iter _ _ Hit). intros _. now split.
Qed.

(** An image that fails in the entry loop leaves the rows of the entries
    flattened before the failure, fewer than its parsed entries; an image
    that fails before the loop leaves none. *)
Lemma failure_rows (img : uploaded_image) :
  failed json_loads img = true ->
  (if reaches_loop json_loads img
   then length (image_rows json_loads img) <
          length (image_entries json_loads img)
   else image_rows json_loads img = []) /\
  exists e, image_message json_loads img = St_warning (name img) e.
Proof.
  unfold failed, image_message, image_rows, image_entries, reaches_loop,
    try_body.
  destruct (opened img) as [u|e];
    [|solve [intros _; split; [reflexivity | eexists; reflexivity]]].
  destruct (response_text img) as [[text|]|e];
    try solve [intros _; split; [reflexivity | eexists; reflexivity]].
  destruct (json_loads (clean_text text)) as [parsed|e];
    [|solve [intros _; split; [reflexivity | eexists; reflexivity]]].
  rewrite handle_parsed_outcome.
  destruct (py_iter (normalize parsed)) as [entries|e] eqn:Hit;
    [|solve [intros _; split; [reflexivity | eexists; reflexivity]]].
  pose proof (flattened_prefix_length entries) as Hlen.
  destruct (snd (append_entries entries [])) as [u'|e].
  - rewrite (py_len_iter _ _ Hit). discriminate.
  - intros _. split; [exact Hlen | eexists; reflexivity].
Qed.

Lemma count_messages (imgs : list uploaded_image) :
  count is_warning (map (image_message json_loads) imgs) =
    length (filter (failed json_loads) imgs) /\
  count is_success (map (image_message json_loads) imgs) =
    length imgs - length (filter (failed json_loads) imgs).
Proof.
  unfold count.
  induction imgs as [|img imgs [IHw IHs]]; cbn -[Nat.sub]; [now split|].
  pose proof (filter_length_le (failed json_loads) imgs) as Hle.
  destruct (failed json_loads img) eqn:Hf.
  - destruct (failure_rows img Hf) as [_ [e ->]]. cbn -[Nat.sub].
    rewrite IHw, IHs. split; lia.
  - destruct (success_rows img Hf) as [_ ->]. cbn -[Nat.sub].
    rewrite IHw, IHs. split; lia.
Qed.

Lemma rows_by_outcome (imgs : list uploaded_image) :
  length (flat_map (image_rows json_loads) imgs) =
    announced_rows json_loads imgs +
    list_sum (map (fun img => length (image_rows json_loads img))
                (filter (failed json_loads) imgs)).
Proof.
  unfold announced_rows.
  induction imgs as [|img imgs IH]; simpl; [reflexivity|].
  rewrite length_app, IH.
  destruct (failed json_loads img) eqn:Hf; simpl.
  - lia.
  - destruct (success_rows img Hf) as [-> _]. lia.
Qed.

(** C1, as amended: in a run over N images of which M fail, exactly M
    warnings and N - M success messages are shown, and the final table
    holds, in processing order, the rows of each image: one per parsed
    entry for an image that succeeds; for an image that fails in the
    entry loop the rows of the entries flattened before the failure,
    fewer than its parsed entries; none for an image that fails before the
    loop (open, model call, normalization). *)
Theorem C1_rows_and_warnings (imgs : list uploaded_image) :
  let st := process_images json_loads imgs in
  let M := length (filter (failed json_loads) imgs) in
  count is_warning (log st) = M /\
  count is_success (log st) = length imgs - M /\
  all_data st = flat_map (image_rows json_loads) imgs /\
  length (all_data st) =
    announced_rows json_loads imgs +
    list_sum (map (fun img => length (image_rows json_loads img))
                (filter (failed json_loads) imgs)) /\
  Forall (fun img =>
            if failed json_loads img
            then if reaches_loop json_loads img
                 then length (image_rows json_loads img) <
                        length (image_entries json_loads img)
                 else image_rows json_loads img = []
            else length (image_rows json_loads img) =
                   length (image_entries json_loads img)) imgs.
Proof.
  cbv zeta. rewrite process_images_spec. simpl.
  destruct (count_messages imgs) as [Hw Hs].
  repeat split; auto using rows_by_outcome.
  apply Forall_forall. intros img _.
  destruct (failed json_loads img) eqn:Hf.
  - apply (failure_rows img Hf).
  - apply (success_rows img Hf).
Qed.

End FailureIsolation.

(** C1, as stated, fails: the image [half_good] is answered with the array
    [[{}, 5]]; its first entry is flattened and appended, its second raises,
    so the image fails with a warning, yet the table has one row where the
    claim announces none. *)
Lemma C1_counterexample :
  failed sample_loads half_good = true /\
  count is_warning (log (process_images sample_loads [half_good])) = 1 /\
  announced_rows sample_loads [half_good] = 0 /\
  length (all_data (process_images sample_loads [half_good])) = 1.
Proof. vm_compute. auto. Qed.

Section Normalisation.

Variable json_loads : pystr -> result json.

Lemma flattened_prefix_stops (pre : list json) (recs : list pydict)
  (bad : json) (post : list json) (e : exn) :
  map flat_data pre = map Ok recs ->
  flat_data bad = Raise e ->
  flattened_prefix (pre ++ bad :: post) = recs /\
  snd (append_entries (pre ++ bad :: post) []) = Raise e.
Proof.
  intros Hpre Hbad. revert recs Hpre.
  induction pre as [|entry pre IH]; intros [|fd recs]; simpl;
    try discriminate.
  - intros _. now rewrite Hbad.
  - intros [= Hfd Hpre]. rewrite Hfd.
    destruct (append_entries_spec (pre ++ bad :: post) [fd]) as [_ ->].
    destruct (IH recs Hpre) as [-> ->]. now split.
Qed.

(** C10: when the parsed value of an image is a list whose entry at
    position k raises during flattening while the k entries before it
    flatten to [recs], processing the image appends [recs] to the table
    and reports the image as failed with a warning; the rows stay in the
    table whatever images follow. *)
Theorem C10_rows_before_failure_are_kept
  (img : uploaded_image) (text : pystr) (pre : list json) (bad : json)
  (post : list json) (recs : list pydict) (e : exn) (st : state)
  (later : list uploaded_image) :
  opened img = Ok tt ->
  response_text img = Ok (Some text) ->
  json_loads (clean_text text) = Ok (JList (pre ++ bad :: post)) ->
  map flat_data pre = map Ok recs ->
  flat_data bad = Raise e ->
  process_image json_loads st img =
    {| all_data := all_data st ++ recs;
       log := log st ++ [St_warning (name img) e] |} /\
  length recs = length pre /\
  exists more,
    all_data (fold_left (process_image json_loads) later
                (process_image json_loads st img)) =
      all_data st ++ recs ++ more.
Proof.
  intros Hopen Htext Hjson Hpre Hbad.
  destruct (flattened_prefix_stops pre recs bad post e Hpre Hbad)
    as [Hrows Hraise].
  assert (Hstep : process_image json_loads st img =
            {| all_data := all_data st ++ recs;
               log := log st ++ [St_warning (name img) e] |}).
  { rewrite process_image_spec.
    unfold image_rows, image_message, image_entries, try_body.
    rewrite Hopen, Htext, Hjson, handle_parsed_outcome. simpl.
    now rewrite Hrows, Hraise. }
  split; [exact Hstep|]. split.
  - apply (f_equal (@length _)) in Hpre. now rewrite !length_map in Hpre.
  - rewrite Hstep, fold_process_image. simpl.
    eexists. now rewrite <- app_assoc.
Qed.

(** C5: a response whose parsed value is the single object [o] and a
    response whose parsed value is the one-element array [[o]] are
    handled alike: the same records are appended (or the same exception
    raised) and the same message is shown. *)
Theorem C5_single_object_as_singleton
  (nm t1 t2 : pystr) (o : pydict) (st : state) :
  json_loads (clean_text t1) = Ok (JDict o) ->
  json_loads (clean_text t2) = Ok (JList [JDict o]) ->
  process_image json_loads st
    {| name := nm; opened := Ok tt; response_text := Ok (Some t1) |} =
  process_image json_loads st
    {| name := nm; opened := Ok tt; response_text := Ok (Some t2) |}.
Proof.
  intros H1 H2. unfold process_image, try_body. simpl.
  now rewrite H1, H2.
Qed.

End Normalisation.

Lemma C10_witness :
  process_image sample_loads {| all_data := []; log := [] |} half_good =
    {| all_data := [combine COLUMNS [EMPTY; EMPTY; EMPTY; EMPTY; EMPTY;
                                      EMPTY; EMPTY]];
       log := [St_warning (lit "a.png") AttributeError] |}.
Proof.
  exact (proj1 (C10_rows_before_failure_are_kept sample_loads half_good
                  (lit "```json
[{}, 5]
```")
                  [JDict []] (JInt 5) []
                  [combine COLUMNS [EMPTY; EMPTY; EMPTY; EMPTY; EMPTY;
                                    EMPTY; EMPTY]]
                  AttributeError {| all_data := []; log := [] |} []
                  eq_refl eq_refl eq_refl eq_refl eq_refl)).
Defined.

Lemma C5_witness :
  process_image sample_loads {| all_data := []; log := [] |}
    {| name := lit "c.png"; opened := Ok tt;
       response_text := Ok (Some (lit "{}")) |} =
  process_image sample_loads {| all_data := []; log := [] |}
    {| name := lit "c.png"; opened := Ok tt;
       response_text := Ok (Some (lit "[{}]")) |}.
Proof.
  exact (C5_single_object_as_singleton sample_loads (lit "c.png")
           (lit "{}") (lit "[{}]") [] {| all_data := []; log := [] |}
           eq_refl eq_refl).
Defined.

(** ** Export *)

Section ExportStep.

Variable json_loads : pystr -> result json.
Variable save_workbook : workbook -> result bytes.

Lemma image_message_kind (img : uploaded_image) :
  is_image_message (image_message json_loads img) = true.
Proof.
  unfold image_message.
  now destruct (snd (try_body json_loads img [])).
Qed.

Lemma messages_kind (imgs : list uploaded_image) :
  Forall (fun e => is_image_message e = true)
    (map (image_message json_loads) imgs).
Proof.
  apply Forall_forall. intros e [img [<- _]]%in_map_iff.
  apply image_message_kind.
Qed.

Lemma export_kind (data : list pydict) :
  Forall (fun e => is_image_message e = false)
    (export save_workbook data) /\
  count is_download (export save_workbook data) <= 1.
Proof.
  unfold export, count. destruct data as [|d data]; simpl.
  - split; [repeat constructor | lia].
  - destruct (save_workbook _); simpl; split; try lia; repeat constructor.
Qed.

Lemma count_app (p : effect -> bool) (l1 l2 : list effect) :
  count p (l1 ++ l2) = count p l1 + count p l2.
Proof. unfold count. now rewrite filter_app, length_app. Qed.

Lemma no_download_in_messages (imgs : list uploaded_image) :
  count is_download (map (image_message json_loads) imgs) = 0.
Proof.
  unfold count. induction imgs as [|img imgs IH]; simpl; [reflexivity|].
  unfold image_message at 1.
  now destruct (snd (try_body json_loads img [])).
Qed.

Lemma extract_all_spec (imgs : list uploaded_image) :
  extract_all json_loads save_workbook imgs =
    map (image_message json_loads) imgs ++
    export save_workbook (flat_map (image_rows json_loads) imgs).
Proof. unfold extract_all. now rewrite process_images_spec. Qed.

Lemma no_rows_before_loop (img : uploaded_image) :
  reaches_loop json_loads img = false -> image_rows json_loads img = [].
Proof.
  unfold reaches_loop, image_rows, image_entries.
  destruct (opened img); [|reflexivity].
  destruct (response_text img) as [[text|]|]; try reflexivity.
  destruct (json_loads (clean_text text)) as [parsed|]; [|reflexivity].
  now destruct (py_iter (normalize parsed)).
Qed.

(** C3: in a run whose record list is empty after the loop, the page shows
    the messages of the images followed by the error, and no download
    button.  The list is empty in particular when every image fails before
    its entry loop.  In every run the export effects come behind the
    messages of all images, and at most one download is offered. *)
Theorem C3_empty_table_no_download (inp : inputs) :
  (Forall (fun img => reaches_loop json_loads img = false)
     (uploaded_images inp) ->
   all_data (process_images json_loads (uploaded_images inp)) = []) /\
  (forall c key,
     uploaded_images inp <> [] ->
     api_key (getenv inp) = Some (c :: key) ->
     client inp (c :: key) = Ok tt ->
     button inp = true ->
     all_data (process_images json_loads (uploaded_images inp)) = [] ->
     script json_loads save_workbook inp =
       [St_title; St_write] ++
       log (process_images json_loads (uploaded_images inp)) ++
       [St_error NO_DATA] /\
     count is_download (script json_loads save_workbook inp) = 0) /\
  count is_download (script json_loads save_workbook inp) <= 1 /\
  exists messages tail,
    script json_loads save_workbook inp =
      [St_title; St_write] ++ messages ++ tail /\
    Forall (fun e => is_image_message e = true) messages /\
    Forall (fun e => is_image_message e = false) tail /\
    (0 < count is_export tail ->
     length messages = length (uploaded_images inp)).
Proof.
  split; [|split; [|split]].
  - rewrite process_images_spec. cbn [all_data].
    induction 1 as [|img imgs Himg _ IH]; simpl; [reflexivity|].
    now rewrite (no_rows_before_loop img Himg), IH.
  - intros c key Himgs Hkey Hclient Hbutton Hempty.
    unfold script. rewrite Hkey, Hclient, Hbutton.
    destruct (uploaded_images inp) as [|img imgs] eqn:Hup;
      [congruence|].
    unfold extract_all. rewrite Hempty. simpl export.
    split; [reflexivity|].
    rewrite process_images_spec. cbn [log].
    rewrite !count_app, no_download_in_messages. reflexivity.
  - unfold script.
    destruct (uploaded_images inp) as [|img imgs]; [unfold count; simpl; lia|].
    destruct (api_key (getenv inp)) as [[|c key]|];
      try (unfold count; simpl; lia).
    destruct (client inp (c :: key)); [|unfold count; simpl; lia].
    destruct (button inp); [|unfold count; simpl; lia].
    rewrite extract_all_spec, !count_app, no_download_in_messages.
    apply export_kind.
  - unfold script.
    destruct (uploaded_images inp) as [|img imgs] eqn:Hup.
    { exists [], [St_info]. repeat split; auto. }
    destruct (api_key (getenv inp)) as [[|c key]|].
    1,3: exists [], [St_info]; repeat split; auto;
      unfold count; simpl; lia.
    destruct (client inp (c :: key)) as [u|e].
    2:{ exists [], [St_error_init e; St_stop].
        repeat split; auto; unfold count; simpl; lia. }
    destruct (button inp).
    2:{ exists [], []. repeat split; auto; unfold count; simpl; lia. }
    rewrite extract_all_spec.
    eexists _, _. split; [reflexivity|]. split; [apply messages_kind|].
    split; [apply export_kind|]. intros _. now rewrite length_map.
Qed.

End ExportStep.

(** C3 read as "whenever every image fails": the only image of this run
    fails, at its second entry, after the record of its first entry has
    been appended; the table is not empty, so a download is offered and no
    error is shown. *)
Lemma C3_counterexample :
  Forall (fun img => failed sample_loads img = true)
    (uploaded_images (sample_inputs [half_good])) /\
  count is_download
    (script sample_loads sample_writer (sample_inputs [half_good])) = 1 /\
  count is_error
    (script sample_loads sample_writer (sample_inputs [half_good])) = 0.
Proof. repeat split. repeat constructor. Qed.

Lemma C3_witness :
  script sample_loads sample_writer (sample_inputs [garbled]) =
    [St_title; St_write; St_warning (lit "b.png") ValueError;
     St_error NO_DATA] /\
  count is_download
    (script sample_loads sample_writer (sample_inputs [garbled])) = 0.
Proof.
  apply (proj1 (proj2 (C3_empty_table_no_download sample_loads sample_writer
                         (sample_inputs [garbled]))) 107%N (lit "3y"));
    [discriminate | reflexivity | reflexivity | reflexivity | reflexivity].
Defined.

Section Table.

Variable json_loads : pystr -> result json.
Variable save_workbook : workbook -> result bytes.

(** Every record the flattener builds has the seven column names as its
    keys, in order. *)
Lemma flat_data_keys (entry : json) (fd : pydict) :
  flat_data entry = Ok fd -> map fst fd = COLUMNS.
Proof.
  unfold flat_data.
  destruct entry as [| | | | |items|d]; try discriminate. simpl.
  destruct (py_get _ K_Landmark1 EMPTY); [|discriminate]. simpl.
  destruct (py_get _ K_Landmark2 EMPTY); [|discriminate]. simpl.
  destruct (py_join _ _); [|discriminate]. simpl.
  now intros [= <-].
Qed.

(** The rows of an image are the records of its first entries, in the
    order of the entries. *)
Lemma flattened_prefix_firstn (entries : list json) :
  map flat_data (firstn (length (flattened_prefix entries)) entries) =
    map Ok (flattened_prefix entries).
Proof.
  induction entries as [|entry rest IH]; simpl; [reflexivity|].
  destruct (flat_data entry) as [fd|e] eqn:H; simpl; [|reflexivity].
  now rewrite H, IH.
Qed.

Lemma flattened_prefix_keys (entries : list json) :
  Forall (fun fd => map fst fd = COLUMNS) (flattened_prefix entries).
Proof.
  induction entries as [|entry rest IH]; simpl; [constructor|].
  destruct (flat_data entry) as [fd|e] eqn:H; constructor;
    eauto using flat_data_keys.
Qed.

Lemma table_keys (imgs : list uploaded_image) :
  Forall (fun fd => map fst fd = COLUMNS)
    (flat_map (image_rows json_loads) imgs).
Proof.
  induction imgs as [|img imgs IH]; simpl; [constructor|].
  apply Forall_app. split; [apply flattened_prefix_keys | exact IH].
Qed.

Lemma record_shape (fd : pydict) :
  map fst fd = COLUMNS ->
  exists v1 v2 v3 v4 v5 v6 v7,
    fd = combine COLUMNS [v1; v2; v3; v4; v5; v6; v7].
Proof.
  unfold COLUMNS.
  destruct fd as [|[k1 v1] [|[k2 v2] [|[k3 v3] [|[k4 v4] [|[k5 v5]
                 [|[k6 v6] [|[k7 v7] [|]]]]]]]];
    try discriminate.
  simpl. intros [= -> -> -> -> -> -> ->].
  now exists v1, v2, v3, v4, v5, v6, v7.
Qed.

Lemma record_row (fd : pydict) :
  map fst fd = COLUMNS ->
  map (dict_lookup fd) COLUMNS = map (fun kv => Some (snd kv)) fd.
Proof.
  intros (v1 & v2 & v3 & v4 & v5 & v6 & v7 & ->)%record_shape.
  reflexivity.
Qed.

Lemma record_keys_seen (fd : pydict) :
  map fst fd = COLUMNS ->
  fold_left (fun acc kv => if mem (fst kv) acc then acc
                           else acc ++ [fst kv]) fd [] = COLUMNS /\
  fold_left (fun acc kv => if mem (fst kv) acc then acc
                           else acc ++ [fst kv]) fd COLUMNS = COLUMNS.
Proof.
  intros (v1 & v2 & v3 & v4 & v5 & v6 & v7 & ->)%record_shape.
  split; reflexivity.
Qed.

Lemma union_keys_columns (records : list pydict) :
  Forall (fun fd => map fst fd = COLUMNS) records ->
  union_keys COLUMNS records = COLUMNS.
Proof.
  induction 1 as [|fd records Hfd _ IH]; simpl; [reflexivity|].
  destruct (record_keys_seen fd Hfd) as [_ ->]. exact IH.
Qed.

(** The frame of a non-empty table of flattened records. *)
Lemma frame_of_records (records : list pydict) :
  records <> [] ->
  Forall (fun fd => map fst fd = COLUMNS) records ->
  pd_DataFrame records =
    {| columns := COLUMNS;
       rows := map (fun i =>
                      map (fun c =>
                             Stored (map (fun fd => dict_lookup fd c) records)
                               i)
                        COLUMNS)
                 (seq 0 (length records)) |}.
Proof.
  intros Hne Hall. unfold pd_DataFrame.
  assert (Hcols : union_keys [] records = COLUMNS).
  { destruct records as [|fd records]; [congruence|].
    apply Forall_cons_iff in Hall as [Hfd Hall]. simpl.
    destruct (record_keys_seen fd Hfd) as [-> _].
    now apply union_keys_columns. }
  now rewrite Hcols.
Qed.

Lemma export_nonempty (data : list pydict) :
  data <> [] ->
  export save_workbook data =
    match save_workbook [to_excel (pd_DataFrame data) SHEET_NAME] with
    | Ok output =>
        [St_subheader; St_dataframe (pd_DataFrame data);
         St_download_button output FILE_NAME MIME]
    | Raise e => [Uncaught e]
    end.
Proof. destruct data; [congruence|reflexivity]. Qed.

Lemma download_in_export (data : list pydict) (out : bytes)
  (file mime : pystr) :
  In (St_download_button out file mime) (export save_workbook data) ->
  file = FILE_NAME.
Proof.
  unfold export. destruct data as [|d data]; simpl.
  - intros [H|[]]; discriminate.
  - destruct (save_workbook _); simpl.
    + intros [H|[H|[H|[]]]]; try discriminate. now injection H.
    + intros [H|[]]; discriminate.
Qed.

Lemma download_in_script (inp : inputs) (out : bytes)
  (file mime : pystr) :
  In (St_download_button out file mime)
    (script json_loads save_workbook inp) ->
  file = FILE_NAME.
Proof.
  unfold script. intros [H|[H|H]]; try discriminate. revert H.
  destruct (uploaded_images inp) as [|img imgs].
  { intros [H|[]]; discriminate. }
  destruct (api_key (getenv inp)) as [[|c key]|];
    try (intros [H|[]]; discriminate).
  destruct (client inp (c :: key)).
  2:{ intros [H|[H|[]]]; discriminate. }
  destruct (button inp); [|intros []]. rewrite app_nil_l.
  rewrite extract_all_spec. intros H. apply in_app_or in H as [H|H].
  - apply in_map_iff in H as [i [H _]]. unfold image_message in H.
    destruct (snd (try_body json_loads i [])); discriminate.
  - eapply download_in_export, H.
Qed.

(** C8: in a run whose table is not empty, the frame has the seven
    columns EstablishmentType, HostelName, Landmark1, Landmark2,
    KeyService, AccommodationOptions, ContactNumbers in this order and
    one row per record of the table, in the order of the table: the cells
    of row [i] are what pandas stores at position [i] of each column, and
    every record gives each column a value (none is missing).  The
    records are those of the images in processing order and, within an
    image, those of its flattened entries in their order.  The writer
    receives a workbook with this single sheet, and when it has written it
    the page offers the bytes under the file name
    "Combined_Extracted_Data.xlsx", as does every download the script ever
    offers. *)
Theorem C8_exported_sheet (imgs : list uploaded_image) :
  let data := all_data (process_images json_loads imgs) in
  let df := pd_DataFrame data in
  data <> [] ->
  data = flat_map (image_rows json_loads) imgs /\
  Forall (fun img =>
            map flat_data
              (firstn (length (image_rows json_loads img))
                 (image_entries json_loads img)) =
            map Ok (image_rows json_loads img)) imgs /\
  columns df = COLUMNS /\
  rows df =
    map (fun i =>
           map (fun c => Stored (map (fun fd => dict_lookup fd c) data) i)
             COLUMNS)
      (seq 0 (length data)) /\
  Forall (fun fd => map (dict_lookup fd) COLUMNS =
                    map (fun kv => Some (snd kv)) fd) data /\
  length (rows df) = length data /\
  extract_all json_loads save_workbook imgs =
    log (process_images json_loads imgs) ++
    match save_workbook [ {| sheet_name := SHEET_NAME;
                             header := COLUMNS;
                             body := rows df |} ] with
    | Ok output =>
        [St_subheader; St_dataframe df;
         St_download_button output FILE_NAME MIME]
    | Raise e => [Uncaught e]
    end /\
  forall inp out file mime,
    In (St_download_button out file mime)
      (script json_loads save_workbook inp) ->
    file = FILE_NAME.
Proof.
  cbv zeta. rewrite process_images_spec. cbn [all_data log].
  intros Hne.
  rewrite (frame_of_records _ Hne (table_keys imgs)). cbn [columns rows].
  repeat split.
  - apply Forall_forall. intros img _. apply flattened_prefix_firstn.
  - generalize (table_keys imgs). apply Forall_impl.
    intros fd Hfd. now apply record_row.
  - now rewrite length_map, length_seq.
  - rewrite extract_all_spec, (export_nonempty _ Hne).
    now rewrite (frame_of_records _ Hne (table_keys imgs)).
  - apply download_in_script.
Qed.

End Table.

Lemma C8_witness :
  all_data (process_images sample_loads [one_object]) <> [] /\
  columns (pd_DataFrame (all_data (process_images sample_loads [one_object])))
    = COLUMNS /\
  extract_all sample_loads sample_writer [one_object] =
    [ St_success 1 (lit "c.png");
      St_subheader;
      St_dataframe
        {| columns := COLUMNS;
           rows := [[Stored [Some EMPTY] 0; Stored [Some EMPTY] 0;
                     Stored [Some EMPTY] 0; Stored [Some EMPTY] 0;
                     Stored [Some EMPTY] 0; Stored [Some EMPTY] 0;
                     Stored [Some EMPTY] 0]] |};
      St_download_button [] FILE_NAME MIME ].
Proof.
  assert (H : all_data (process_images sample_loads [one_object]) <> [])
    by discriminate.
  split; [exact H|].
  pose proof (C8_exported_sheet sample_loads sample_writer [one_object] H)
    as (_ & _ & Hcols & _ & _ & _ & Hlog & _).
  split; [exact Hcols | exact Hlog].
Defined.

(** ** Code fences *)

Example clean_text_fenced_array :
  clean_text (lit "```json
[1, 2]
```") = lit "[1, 2]".
Proof. reflexivity. Qed.

(** Only markers at the start or at the end of a line are deleted. *)
Example sub_fences_by_line :
  sub_fences (lit "a```
```json x
 ```x
b```json") = lit "a
 x
 ```x
b```json".
Proof. reflexivity. Qed.

(** Two markers in a row: the first is deleted as a line start, the second
    as a line end. *)
Example sub_fences_twice : sub_fences (lit "``````") = [].
Proof. reflexivity. Qed.

Lemma strip_prefix_app (p s r : pystr) :
  ~ In NL p ->
  strip_prefix p (s ++ NL :: r) =
    option_map (fun rest => rest ++ NL :: r) (strip_prefix p s).
Proof.
  revert s; induction p as [|a p IH]; intros s Hp; [reflexivity|].
  assert (Ha : N.eqb a NL = false).
  { apply N.eqb_neq. intros ->. apply Hp. now left. }
  destruct s as [|b s]; simpl.
  - now rewrite Ha.
  - destruct (N.eqb a b); [|reflexivity].
    apply IH. intros H. apply Hp. now right.
Qed.

Lemma strip_prefix_length (p s rest : pystr) :
  strip_prefix p s = Some rest -> length s = length p + length rest.
Proof.
  revert s; induction p as [|a p IH]; intros s; simpl.
  - now intros [= <-].
  - destruct s as [|b s]; [discriminate|].
    destruct (N.eqb a b); [|discriminate].
    intros H. simpl. now rewrite (IH _ H).
Qed.

(** The closing line does not change what the pattern matches inside the
    text in front of it. *)
Lemma fence_match_app (bol : bool) (s r : pystr) :
  fence_match bol (s ++ NL :: r) = fence_match bol s.
Proof.
  unfold fence_match.
  rewrite strip_prefix_app by (vm_compute; intuition discriminate).
  destruct (strip_prefix FENCE s) as [rest|]; [cbn [option_map]|reflexivity].
  destruct bol.
  - rewrite strip_prefix_app by (vm_compute; intuition discriminate).
    now destruct (strip_prefix JSON_TAG rest).
  - now destruct rest.
Qed.

Lemma fence_match_length (bol : bool) (s : pystr) (n : nat) :
  fence_match bol s = Some n -> n <= length s.
Proof.
  unfold fence_match.
  destruct (strip_prefix FENCE s) as [rest|] eqn:H1; [|discriminate].
  apply strip_prefix_length in H1. simpl in H1.
  destruct bol.
  - destruct (strip_prefix JSON_TAG rest) as [rest'|] eqn:H2.
    + apply strip_prefix_length in H2. simpl in H2. intros [= <-]. lia.
    + intros [= <-]. lia.
  - destruct (at_eol rest); [|discriminate]. intros [= <-]. lia.
Qed.

Lemma sub_fences_from_closing (text : pystr) :
  forall bol skip,
    skip <= length text ->
    sub_fences_from bol skip (text ++ NL :: FENCE) =
      sub_fences_from bol skip text ++ [NL].
Proof.
  induction text as [|c text IH]; intros bol skip Hskip.
  - assert (skip = 0) as -> by (simpl in Hskip; lia).
    now destruct bol.
  - destruct skip as [|k].
    + change (sub_fences_from bol 0 ((c :: text) ++ NL :: FENCE)) with
        (match fence_match bol ((c :: text) ++ NL :: FENCE) with
         | Some (S k) => sub_fences_from false k (text ++ NL :: FENCE)
         | _ => c :: sub_fences_from (N.eqb c NL) 0 (text ++ NL :: FENCE)
         end).
      change (sub_fences_from bol 0 (c :: text)) with
        (match fence_match bol (c :: text) with
         | Some (S k) => sub_fences_from false k text
         | _ => c :: sub_fences_from (N.eqb c NL) 0 text
         end).
      rewrite fence_match_app.
      destruct (fence_match bol (c :: text)) as [[|k]|] eqn:Hm.
      * rewrite IH by lia. reflexivity.
      * apply fence_match_length in Hm. simpl in Hm.
        apply IH. lia.
      * rewrite IH by lia. reflexivity.
    + simpl in Hskip. simpl. apply IH. lia.
Qed.

Lemma sub_fences_fenced (tagged : bool) (text : pystr) :
  sub_fences (fenced tagged text) = NL :: sub_fences text ++ [NL].
Proof.
  unfold sub_fences.
  transitivity (NL :: sub_fences_from true 0 (text ++ NL :: FENCE)).
  - now destruct tagged.
  - f_equal. apply sub_fences_from_closing. lia.
Qed.

Lemma lstrip_space_end (s : pystr) (w : N) :
  isspace w = true ->
  lstrip (s ++ [w]) =
    match lstrip s with
    | [] => []
    | _ :: _ => lstrip s ++ [w]
    end.
Proof.
  intros Hw. induction s as [|c s IH]; simpl.
  - now rewrite Hw.
  - destruct (isspace c); [exact IH|reflexivity].
Qed.

Lemma rstrip_space_end (s : pystr) (w : N) :
  isspace w = true -> rstrip (s ++ [w]) = rstrip s.
Proof.
  intros Hw. unfold rstrip. rewrite rev_unit. simpl. now rewrite Hw.
Qed.

Lemma strip_padded (s : pystr) (v w : N) :
  isspace v = true -> isspace w = true ->
  strip (v :: s ++ [w]) = strip s.
Proof.
  intros Hv Hw. unfold strip. simpl. rewrite Hv.
  rewrite (lstrip_space_end s w Hw).
  destruct (lstrip s) as [|c l]; [reflexivity|].
  now apply rstrip_space_end.
Qed.

Lemma clean_text_fenced (tagged : bool) (text : pystr) :
  clean_text (fenced tagged text) = clean_text text.
Proof.
  unfold clean_text. rewrite sub_fences_fenced.
  now apply strip_padded.
Qed.

(** C2: for every response text, wrapping it in a markdown code fence (the
    opening marker, with or without the tag [json], on the line before it
    and the closing marker on the line after it) does not change the
    cleaned text, hence neither what [json.loads] returns for it nor how
    the image is processed. *)
Theorem C2_fences_are_transparent
  (json_loads : pystr -> result json) (tagged : bool) (text : pystr)
  (nm : pystr) (st : state) :
  clean_text (fenced tagged text) = clean_text text /\
  json_loads (clean_text (fenced tagged text)) =
    json_loads (clean_text text) /\
  process_image json_loads st
    {| name := nm; opened := Ok tt;
       response_text := Ok (Some (fenced tagged text)) |} =
  process_image json_loads st
    {| name := nm; opened := Ok tt; response_text := Ok (Some text) |}.
Proof.
  pose proof (clean_text_fenced tagged text) as H.
  repeat split; [exact H | now rewrite H |].
  unfold process_image, try_body. simpl. now rewrite H.
Qed.

(** * Further properties *)

(** ** Cleaning the response text *)

Lemma strip_prefix_eq (p s rest : pystr) :
  strip_prefix p s = Some rest -> s = p ++ rest.
Proof.
  revert s; induction p as [|a p IH]; intros s; simpl.
  - now intros [= <-].
  - destruct s as [|b s]; [discriminate|].
    destruct (N.eqb a b) eqn:E; [|discriminate].
    apply N.eqb_eq in E as ->. intros H. now rewrite (IH _ H).
Qed.

Lemma fence_match_deletable (bol : bool) (s : pystr) (n : nat) :
  fence_match bol s = Some n -> forallb deletable (firstn n s) = true.
Proof.
  unfold fence_match.
  destruct (strip_prefix FENCE s) as [rest|] eqn:H1; [|discriminate].
  apply strip_prefix_eq in H1 as ->.
  destruct bol.
  - destruct (strip_prefix JSON_TAG rest) as [rest'|] eqn:H2.
    + apply strip_prefix_eq in H2 as ->. now intros [= <-].
    + now intros [= <-].
  - destruct (at_eol rest); [|discriminate]. now intros [= <-].
Qed.

Lemma sub_fences_from_keeps (s : pystr) :
  forall bol skip,
    forallb deletable (firstn skip s) = true ->
    filter (fun c => negb (deletable c)) (sub_fences_from bol skip s) =
      filter (fun c => negb (deletable c)) s.
Proof.
  induction s as [|c s IH]; intros bol skip Hskip; [reflexivity|].
  assert (Hdrop : forall k,
             forallb deletable (firstn (S k) (c :: s)) = true ->
             filter (fun c => negb (deletable c))
               (sub_fences_from false k s) =
               filter (fun c => negb (deletable c)) (c :: s)).
  { intros k H. simpl in H. apply andb_true_iff in H as [Hc Hk].
    simpl. rewrite Hc. simpl. now apply IH. }
  destruct skip as [|k]; [|now apply Hdrop].
  change (sub_fences_from bol 0 (c :: s)) with
    (match fence_match bol (c :: s) with
     | Some (S k) => sub_fences_from false k s
     | _ => c :: sub_fences_from (N.eqb c NL) 0 s
     end).
  destruct (fence_match bol (c :: s)) as [[|k]|] eqn:Hm.
  - simpl. now rewrite IH.
  - apply Hdrop. now apply (fence_match_deletable bol).
  - simpl. now rewrite IH.
Qed.

Lemma sub_fences_from_length (s : pystr) :
  forall bol skip, length (sub_fences_from bol skip s) <= length s.
Proof.
  induction s as [|c s IH]; intros bol skip; [simpl; lia|].
  destruct skip as [|k].
  - change (sub_fences_from bol 0 (c :: s)) with
      (match fence_match bol (c :: s) with
       | Some (S k) => sub_fences_from false k s
       | _ => c :: sub_fences_from (N.eqb c NL) 0 s
       end).
    destruct (fence_match bol (c :: s)) as [[|k]|]; simpl.
    + specialize (IH (N.eqb c NL) 0). lia.
    + specialize (IH false k). lia.
    + specialize (IH (N.eqb c NL) 0). lia.
  - simpl. specialize (IH false k). lia.
Qed.

Lemma sub_fences_from_mask (s : pystr) :
  forall bol skip,
    forallb deletable (firstn skip s) = true ->
    exists mask,
      length mask = length s /\
      sub_fences_from bol skip s = select mask s /\
      forallb deletable (select (map negb mask) s) = true.
Proof.
  induction s as [|c s IH]; intros bol skip Hskip.
  { exists []. now repeat split. }
  assert (Hdrop : forall k,
             forallb deletable (firstn (S k) (c :: s)) = true ->
             exists mask,
               length mask = length (c :: s) /\
               sub_fences_from false k s = select mask (c :: s) /\
               forallb deletable (select (map negb mask) (c :: s)) = true).
  { intros k H. simpl in H. apply andb_true_iff in H as [Hc Hk].
    destruct (IH false k Hk) as (mask & Hlen & Hsub & Hdel).
    exists (false :: mask). simpl. rewrite Hlen, Hc, Hdel. now repeat split. }
  assert (Hkeep : exists mask,
             length mask = length (c :: s) /\
             c :: sub_fences_from (N.eqb c NL) 0 s = select mask (c :: s) /\
             forallb deletable (select (map negb mask) (c :: s)) = true).
  { destruct (IH (N.eqb c NL) 0 eq_refl) as (mask & Hlen & Hsub & Hdel).
    exists (true :: mask). simpl. rewrite Hlen, Hsub, Hdel. now repeat split. }
  destruct skip as [|k]; [|now apply Hdrop].
  change (sub_fences_from bol 0 (c :: s)) with
    (match fence_match bol (c :: s) with
     | Some (S k) => sub_fences_from false k s
     | _ => c :: sub_fences_from (N.eqb c NL) 0 s
     end).
  destruct (fence_match bol (c :: s)) as [[|k]|] eqn:Hm.
  - exact Hkeep.
  - apply Hdrop. now apply (fence_match_deletable bol).
  - exact Hkeep.
Qed.

(** X1: the substitution only deletes, and it deletes nothing but
    backticks and the letters j, s, o, n.  The result consists of the
    characters of the response at the kept positions, in their order;
    every character at a deleted position is a backtick or one of these
    letters.  Hence every other character of the response (brackets,
    braces, quotes, digits, line feeds, ...) is kept, and the result is
    never longer than the response. *)
Theorem X1_sub_fences_keeps_payload (text : pystr) :
  (exists mask,
     length mask = length text /\
     sub_fences text = select mask text /\
     forallb deletable (select (map negb mask) text) = true) /\
  filter (fun c => negb (deletable c)) (sub_fences text) =
    filter (fun c => negb (deletable c)) text /\
  length (sub_fences text) <= length text.
Proof.
  split; [|split].
  - now apply sub_fences_from_mask.
  - now apply sub_fences_from_keeps.
  - apply sub_fences_from_length.
Qed.

Lemma sub_fences_from_plain (s : pystr) :
  forall bol, ~ In 96%N s -> sub_fences_from bol 0 s = s.
Proof.
  induction s as [|c s IH]; intros bol Hs; [reflexivity|].
  assert (Hc : N.eqb 96 c = false).
  { apply N.eqb_neq. intros <-. apply Hs. now left. }
  change (sub_fences_from bol 0 (c :: s)) with
    (match fence_match bol (c :: s) with
     | Some (S k) => sub_fences_from false k s
     | _ => c :: sub_fences_from (N.eqb c NL) 0 s
     end).
  unfold fence_match, FENCE. cbn [strip_prefix]. rewrite Hc. f_equal.
  apply IH. intros H. apply Hs. now right.
Qed.

(** X2: a response without any backtick passes through the substitution
    unchanged, so it is only trimmed. *)
Theorem X2_plain_text_is_only_trimmed (text : pystr) :
  ~ In 96%N text ->
  sub_fences text = text /\ clean_text text = strip text.
Proof.
  intros H. unfold clean_text, sub_fences.
  now rewrite sub_fences_from_plain.
Qed.

Lemma X2_witness :
  clean_text (lit " [1] ") = lit "[1]".
Proof.
  refine (eq_trans (proj2 (X2_plain_text_is_only_trimmed (lit " [1] ") _))
            eq_refl).
  vm_compute. intuition discriminate.
Defined.

Lemma lstrip_head_ok (s : pystr) : head_ok (lstrip s).
Proof.
  induction s as [|c s IH]; simpl; [exact I|].
  destruct (isspace c) eqn:E; [exact IH|exact E].
Qed.

Lemma lstrip_fixed (s : pystr) : head_ok s -> lstrip s = s.
Proof. destruct s as [|c s]; simpl; [reflexivity|]. now intros ->. Qed.

Lemma lstrip_suffix (s : pystr) : exists w, s = w ++ lstrip s.
Proof.
  induction s as [|c s [w IH]]; [now exists []|]. simpl.
  destruct (isspace c).
  - exists (c :: w). simpl. now f_equal.
  - now exists [].
Qed.

Lemma rstrip_prefix (s : pystr) : exists w, s = rstrip s ++ w.
Proof.
  unfold rstrip. destruct (lstrip_suffix (rev s)) as [w H].
  exists (rev w). rewrite <- rev_app_distr, <- H. now rewrite rev_involutive.
Qed.

Lemma rstrip_head_ok (s : pystr) : head_ok s -> head_ok (rstrip s).
Proof.
  destruct (rstrip_prefix s) as [w H]. intros Hs.
  destruct (rstrip s) as [|c y]; [exact I|].
  rewrite H in Hs. exact Hs.
Qed.

Lemma strip_ends (s : pystr) :
  head_ok (strip s) /\ head_ok (rev (strip s)).
Proof.
  unfold strip. split.
  - apply rstrip_head_ok, lstrip_head_ok.
  - unfold rstrip. rewrite rev_involutive. apply lstrip_head_ok.
Qed.

Lemma strip_fixed (s : pystr) :
  head_ok s -> head_ok (rev s) -> strip s = s.
Proof.
  intros H1 H2. unfold strip, rstrip.
  rewrite (lstrip_fixed s H1), (lstrip_fixed (rev s) H2).
  apply rev_involutive.
Qed.

(** X3: the text handed to [json.loads] neither starts nor ends with white
    space, whatever the model answered, and trimming it again changes
    nothing. *)
Theorem X3_clean_text_is_trimmed (text : pystr) :
  head_ok (clean_text text) /\
  head_ok (rev (clean_text text)) /\
  strip (clean_text text) = clean_text text.
Proof.
  unfold clean_text.
  destruct (strip_ends (sub_fences text)) as [H1 H2].
  repeat split; auto using strip_fixed.
Qed.

Lemma strip_lead (s : pystr) (v : N) :
  isspace v = true -> strip (v :: s) = strip s.
Proof. intros Hv. unfold strip. simpl. now rewrite Hv. Qed.

Lemma strip_trail (s : pystr) (w : N) :
  isspace w = true -> strip (s ++ [w]) = strip s.
Proof.
  intros Hw. unfold strip. rewrite (lstrip_space_end s w Hw).
  destruct (lstrip s) as [|c l]; [reflexivity|].
  now apply rstrip_space_end.
Qed.

(** X4: each marker is removed on its own: a response that only opens a
    fence (marker line, with or without the tag, then the text) and a
    response that only closes one (the text, then the marker line) are
    cleaned to the same text as the bare response. *)
Theorem X4_unbalanced_fences (tagged : bool) (text : pystr) :
  clean_text ((if tagged then FENCE ++ JSON_TAG else FENCE) ++ NL :: text) =
    clean_text text /\
  clean_text (text ++ NL :: FENCE) = clean_text text.
Proof.
  unfold clean_text, sub_fences. split.
  - transitivity (strip (NL :: sub_fences_from true 0 text)).
    + now destruct tagged.
    + now apply strip_lead.
  - rewrite sub_fences_from_closing by lia. now apply strip_trail.
Qed.

(** ** The flattener *)

(** X5: flattening reads six keys of the entry and nothing else: two
    entries that agree on these keys give the same result, so any other
    key of an entry is dropped without notice. *)
Theorem X5_other_keys_are_ignored (d d' : pydict) :
  (forall k, In k ENTRY_KEYS -> dict_lookup d k = dict_lookup d' k) ->
  flat_data (JDict d) = flat_data (JDict d').
Proof.
  intros H. unfold flat_data, py_get, dict_get.
  rewrite (H K_EstablishmentType), (H K_HostelName), (H K_LocationDetails),
    (H K_KeyService), (H K_AccommodationOptions), (H K_ContactNumbers);
    try reflexivity; unfold ENTRY_KEYS; simpl; auto 10.
Qed.

Lemma X5_witness :
  flat_data (JDict [ (lit "Rating", JInt 5);
                     (K_HostelName, JStr (lit "X")) ]) =
  flat_data (JDict [ (K_HostelName, JStr (lit "X")) ]).
Proof.
  apply X5_other_keys_are_ignored.
  intros k [<-|[<-|[<-|[<-|[<-|[<-|[]]]]]]]; reflexivity.
Defined.

Lemma expect_strs_outcome (items : list json) :
  match expect_strs items with
  | Ok _ => forallb is_str items = true
  | Raise e => e = TypeError /\ forallb is_str items = false
  end.
Proof.
  induction items as [|v items IH]; simpl; [reflexivity|].
  destruct v; simpl; auto.
  destruct (expect_strs items); simpl; auto.
Qed.

Lemma py_join_outcome (sep : pystr) (v : json) :
  match py_join sep v with
  | Ok _ => joinable v = true
  | Raise e => e = TypeError /\ joinable v = false
  end.
Proof.
  destruct v as [| | | |s|items|d]; simpl; auto.
  - now rewrite py_join_str.
  - unfold py_join, py_iter, bind.
    pose proof (expect_strs_outcome items) as H.
    now destruct (expect_strs items).
  - unfold py_join, py_iter, bind.
    rewrite <- (map_map fst JStr), expect_strs_map. reflexivity.
Qed.

(** X6: when flattening fails and with what.  An entry that is not a
    mapping, or whose [LocationDetails] is present and not a mapping,
    raises [AttributeError]; otherwise an entry whose [ContactNumbers] is
    present and is neither a list of strings, a string nor a mapping raises
    [TypeError]; every other entry is flattened.  No other exception
    comes out of the flattener. *)
Theorem X6_flattening_errors (entry : json) :
  match flat_data entry with
  | Ok _ => shape_ok entry = true /\ contacts_ok entry = true
  | Raise AttributeError => shape_ok entry = false
  | Raise TypeError => shape_ok entry = true /\ contacts_ok entry = false
  | Raise _ => False
  end.
Proof.
  destruct entry as [| | | | | |d]; try reflexivity.
  unfold shape_ok, contacts_ok.
  destruct (location_is_mapping d) eqn:Hloc.
  - rewrite (flat_data_dict d Hloc).
    pose proof (py_join_outcome COMMA_SPACE
                  (dict_get d K_ContactNumbers (JList []))) as H.
    destruct (py_join COMMA_SPACE (dict_get d K_ContactNumbers (JList [])))
      as [s|e]; simpl.
    + now split.
    + destruct H as [-> H]. now split.
  - now rewrite (flat_data_bad_location d Hloc).
Qed.

Lemma location_details (d : pydict) :
  location_is_mapping d = true ->
  exists loc, dict_get d K_LocationDetails (JDict []) = JDict loc.
Proof.
  unfold location_is_mapping, dict_get.
  destruct (dict_lookup d K_LocationDetails) as [[]|]; try discriminate;
    eauto.
Qed.

(** X7: the flattener does not convert or check the values it copies.  In
    a flattened record the four plain columns hold whatever the entry has
    under the key (a number, a list, null, ...) and the empty string only
    when the key is absent; the two landmark columns do the same with the
    keys of [LocationDetails], each on its own. *)
Theorem X7_values_are_copied (d fd : pydict) :
  flat_data (JDict d) = Ok fd ->
  dict_lookup fd K_EstablishmentType =
    Some (dict_get d K_EstablishmentType EMPTY) /\
  dict_lookup fd K_HostelName = Some (dict_get d K_HostelName EMPTY) /\
  dict_lookup fd K_KeyService = Some (dict_get d K_KeyService EMPTY) /\
  dict_lookup fd K_AccommodationOptions =
    Some (dict_get d K_AccommodationOptions EMPTY) /\
  exists loc,
    dict_get d K_LocationDetails (JDict []) = JDict loc /\
    dict_lookup fd K_Landmark1 = Some (dict_get loc K_Landmark1 EMPTY) /\
    dict_lookup fd K_Landmark2 = Some (dict_get loc K_Landmark2 EMPTY).
Proof.
  destruct (location_is_mapping d) eqn:Hloc.
  - rewrite (flat_data_dict d Hloc).
    destruct (py_join COMMA_SPACE (dict_get d K_ContactNumbers (JList [])))
      as [s|e]; simpl; [|discriminate].
    intros [= <-]. repeat split.
    destruct (location_details d Hloc) as [loc Hd]. rewrite Hd.
    exists loc. repeat split.
  - now rewrite (flat_data_bad_location d Hloc).
Qed.

Lemma X7_witness :
  exists fd,
    flat_data (JDict [ (K_HostelName, JNone);
                       (K_KeyService, JInt 24);
                       (K_LocationDetails,
                         JDict [(K_Landmark2, JStr (lit "B"))]) ]) = Ok fd /\
    dict_lookup fd K_HostelName = Some JNone /\
    dict_lookup fd K_KeyService = Some (JInt 24) /\
    dict_lookup fd K_Landmark1 = Some EMPTY /\
    dict_lookup fd K_Landmark2 = Some (JStr (lit "B")).
Proof.
  eexists. split; [reflexivity|].
  pose proof (X7_values_are_copied
                [ (K_HostelName, JNone);
                  (K_KeyService, JInt 24);
                  (K_LocationDetails,
                    JDict [(K_Landmark2, JStr (lit "B"))]) ] _ eq_refl)
    as (_ & H2 & H3 & _ & loc & Hloc & H5 & H6).
  injection Hloc as <-.
  repeat split; assumption.
Defined.

(** X8: a key that is present with the value null is not treated as
    missing: the default is not used.  A null [LocationDetails] makes
    flattening raise [AttributeError], and with a usable
    [LocationDetails] a null [ContactNumbers] makes it raise
    [TypeError]. *)
Theorem X8_null_is_not_missing (d : pydict) :
  (dict_lookup d K_LocationDetails = Some JNone ->
   flat_data (JDict d) = Raise AttributeError) /\
  (location_is_mapping d = true ->
   dict_lookup d K_ContactNumbers = Some JNone ->
   flat_data (JDict d) = Raise TypeError).
Proof.
  split.
  - intros H. apply flat_data_bad_location.
    unfold location_is_mapping. now rewrite H.
  - intros Hloc H. rewrite (flat_data_dict d Hloc).
    unfold dict_get at 1. now rewrite H.
Qed.

Lemma X8_witness :
  flat_data (JDict [(K_LocationDetails, JNone)]) = Raise AttributeError /\
  flat_data (JDict [(K_ContactNumbers, JNone)]) = Raise TypeError.
Proof.
  split.
  - exact (proj1 (X8_null_is_not_missing [(K_LocationDetails, JNone)])
             eq_refl).
  - exact (proj2 (X8_null_is_not_missing [(K_ContactNumbers, JNone)])
             eq_refl eq_refl).
Defined.

(** ** Runs *)

Section MoreRuns.

Variable json_loads : pystr -> result json.
Variable save_workbook : workbook -> result bytes.

Lemma flat_data_contacts_str (entry : json) (fd : pydict) :
  flat_data entry = Ok fd ->
  exists s, dict_lookup fd K_ContactNumbers = Some (JStr s).
Proof.
  destruct entry as [| | | | | |d]; try discriminate.
  destruct (location_is_mapping d) eqn:Hloc.
  - rewrite (flat_data_dict d Hloc).
    destruct (py_join COMMA_SPACE (dict_get d K_ContactNumbers (JList [])))
      as [s|e]; simpl; [|discriminate].
    intros [= <-]. now exists s.
  - now rewrite (flat_data_bad_location d Hloc).
Qed.

Lemma flattened_prefix_records (entries : list json) :
  Forall (fun fd => map fst fd = COLUMNS /\
                    exists s, dict_lookup fd K_ContactNumbers = Some (JStr s))
    (flattened_prefix entries).
Proof.
  induction entries as [|entry rest IH]; simpl; [constructor|].
  destruct (flat_data entry) as [fd|e] eqn:H; constructor; [|exact IH].
  split; [eapply flat_data_keys | eapply flat_data_contacts_str]; exact H.
Qed.

(** X9: whatever the images and the answers, every record of the table has
    exactly the seven column names as its keys, in the same order, and its
    ContactNumbers value is a string. *)
Theorem X9_table_records (imgs : list uploaded_image) :
  Forall (fun fd => map fst fd = COLUMNS /\
                    exists s, dict_lookup fd K_ContactNumbers = Some (JStr s))
    (all_data (process_images json_loads imgs)).
Proof.
  rewrite process_images_spec. cbn [all_data].
  induction imgs as [|img imgs IH]; simpl; [constructor|].
  apply Forall_app. split; [apply flattened_prefix_records | exact IH].
Qed.

Lemma image_message_name (img : uploaded_image) :
  message_name (image_message json_loads img) = Some (name img).
Proof.
  unfold image_message. now destruct (snd (try_body json_loads img [])).
Qed.

(** X10: the loop leaves exactly one message per uploaded image, in upload
    order, each about its image: no image is skipped after a failure and
    none is reported twice. *)
Theorem X10_one_message_per_image (imgs : list uploaded_image) :
  map message_name (log (process_images json_loads imgs)) =
    map (fun img => Some (name img)) imgs.
Proof.
  rewrite process_images_spec. cbn [log]. rewrite map_map.
  apply map_ext. apply image_message_name.
Qed.

(** X11: images do not influence each other: processing a batch gives the
    rows and the messages of its first part followed by those of its
    second part, each as if processed alone. *)
Theorem X11_batches_compose (imgs1 imgs2 : list uploaded_image) :
  all_data (process_images json_loads (imgs1 ++ imgs2)) =
    all_data (process_images json_loads imgs1) ++
    all_data (process_images json_loads imgs2) /\
  log (process_images json_loads (imgs1 ++ imgs2)) =
    log (process_images json_loads imgs1) ++
    log (process_images json_loads imgs2).
Proof.
  rewrite !process_images_spec. cbn [all_data log].
  now rewrite flat_map_app, map_app.
Qed.

(** X12: the success message tells the truth: when an image does not
    fail, every one of its parsed entries has been flattened, the records
    have been appended in order, and the number shown is the number of
    rows added. *)
Theorem X12_success_count (st : state) (img : uploaded_image) :
  failed json_loads img = false ->
  exists records,
    map flat_data (image_entries json_loads img) = map Ok records /\
    process_image json_loads st img =
      {| all_data := all_data st ++ records;
         log := log st ++ [St_success (length records) (name img)] |}.
Proof.
  intros Hok. destruct (success_rows json_loads img Hok) as [Hlen Hmsg].
  exists (image_rows json_loads img). split.
  - unfold image_rows in *.
    rewrite <- (flattened_prefix_firstn (image_entries json_loads img)).
    now rewrite Hlen, firstn_all.
  - rewrite process_image_spec, Hmsg, Hlen. reflexivity.
Qed.

(** X13: an empty result is not a failure.  When every image is answered
    with nothing to flatten (an empty array, say) each one is reported as
    a success with 0 entries, no warning is shown, and the run still ends
    with the error that no valid data was extracted. *)
Theorem X13_nothing_extracted (imgs : list uploaded_image) :
  Forall (fun img => failed json_loads img = false /\
                     image_entries json_loads img = []) imgs ->
  extract_all json_loads save_workbook imgs =
    map (fun img => St_success 0 (name img)) imgs ++ [St_error NO_DATA].
Proof.
  intros H. rewrite extract_all_spec.
  assert (Hrows : flat_map (image_rows json_loads) imgs = []).
  { induction H as [|img imgs [_ He] _ IH]; simpl; [reflexivity|].
    unfold image_rows at 1. now rewrite He, IH. }
  rewrite Hrows. simpl export. f_equal.
  apply map_ext_Forall. revert H. apply Forall_impl.
  intros img [Hok He].
  destruct (success_rows json_loads img Hok) as [_ ->]. now rewrite He.
Qed.

(** X14: nothing is extracted or exported behind the user's back: a
    message about an image or an effect of the export step appears only
    in a run with at least one uploaded image, a non-empty API key, a
    client created without error from that key, and the button pressed. *)
Theorem X14_effects_need_the_button (inp : inputs) (e : effect) :
  In e (script json_loads save_workbook inp) ->
  (is_image_message e || is_export e)%bool = true ->
  button inp = true /\
  uploaded_images inp <> [] /\
  exists c key u,
    api_key (getenv inp) = Some (c :: key) /\
    client inp (c :: key) = Ok u.
Proof.
  unfold script. intros [<-|[<-|H]]; try discriminate. revert H.
  destruct (uploaded_images inp) as [|img imgs].
  { intros [<-|[]]. discriminate. }
  destruct (api_key (getenv inp)) as [[|c key]|];
    try (intros [<-|[]]; discriminate).
  destruct (client inp (c :: key)) as [u|ex] eqn:Hclient.
  2:{ intros [<-|[<-|[]]]; discriminate. }
  destruct (button inp); [|intros []].
  intros _ _. repeat split; [discriminate|]. now exists c, key, u.
Qed.

(** X15: a response that is valid JSON but neither an array nor an object.
    A number, a boolean, null cannot be iterated: the image fails with
    [TypeError].  A non-empty string is iterated by characters and the
    first character has no [get]: the image fails with [AttributeError].
    An empty string is iterated zero times: the image succeeds with 0
    entries.  In no case is a row added. *)
Theorem X15_scalar_response
  (st : state) (img : uploaded_image) (text : pystr) (parsed : json) :
  opened img = Ok tt ->
  response_text img = Ok (Some text) ->
  json_loads (clean_text text) = Ok parsed ->
  match parsed with JList _ | JDict _ => False | _ => True end ->
  process_image json_loads st img =
    {| all_data := all_data st;
       log := log st ++
              [ match parsed with
                | JStr [] => St_success 0 (name img)
                | JStr (_ :: _) => St_warning (name img) AttributeError
                | _ => St_warning (name img) TypeError
                end ] |}.
Proof.
  intros Hopen Htext Hjson Hshape.
  unfold process_image, try_body. rewrite Hopen, Htext, Hjson.
  destruct parsed as [| | | |[|c s]| |]; try contradiction; reflexivity.
Qed.

Lemma no_error_in_messages (imgs : list uploaded_image) :
  count is_error (map (image_message json_loads) imgs) = 0.
Proof.
  unfold count. induction imgs as [|img imgs IH]; simpl; [reflexivity|].
  unfold image_message at 1.
  now destruct (snd (try_body json_loads img [])).
Qed.

(** X16: how a pressed button ends is decided by the table alone.  With an
    empty table the page shows the error once and no download; with a
    non-empty table it shows no error, and one download exactly when the
    writer has written the workbook, none when the writer raised. *)
Theorem X16_export_outcome (imgs : list uploaded_image) :
  let data := all_data (process_images json_loads imgs) in
  let page := extract_all json_loads save_workbook imgs in
  match data with
  | [] => count is_error page = 1 /\ count is_download page = 0
  | _ :: _ =>
      count is_error page = 0 /\
      count is_download page =
        match save_workbook [to_excel (pd_DataFrame data) SHEET_NAME] with
        | Ok _ => 1
        | Raise _ => 0
        end
  end.
Proof.
  cbv zeta. rewrite extract_all_spec, process_images_spec. cbn [all_data].
  rewrite !count_app, no_error_in_messages,
    (no_download_in_messages json_loads).
  destruct (flat_map (image_rows json_loads) imgs) as [|fd data];
    [now split|].
  unfold export. now destruct (save_workbook _).
Qed.

End MoreRuns.

Lemma X12_witness :
  process_image sample_loads {| all_data := []; log := [] |} one_object =
    {| all_data := [combine COLUMNS [EMPTY; EMPTY; EMPTY; EMPTY; EMPTY;
                                      EMPTY; EMPTY]];
       log := [St_success 1 (lit "c.png")] |}.
Proof.
  destruct (X12_success_count sample_loads {| all_data := []; log := [] |}
              one_object eq_refl) as (records & Hmap & Hstep).
  destruct records as [|fd [|fd' records]]; try discriminate.
  injection Hmap as <-. exact Hstep.
Defined.

Lemma X13_witness :
  extract_all sample_loads_more sample_writer [nothing_found; nothing_found] =
    [St_success 0 (lit "d.png"); St_success 0 (lit "d.png");
     St_error NO_DATA].
Proof.
  apply (X13_nothing_extracted sample_loads_more sample_writer
           [nothing_found; nothing_found]).
  repeat constructor.
Defined.

Lemma X14_witness :
  button (sample_inputs [garbled]) = true /\
  uploaded_images (sample_inputs [garbled]) <> [] /\
  exists c key u,
    api_key (getenv (sample_inputs [garbled])) = Some (c :: key) /\
    client (sample_inputs [garbled]) (c :: key) = Ok u.
Proof.
  apply (X14_effects_need_the_button sample_loads sample_writer
           (sample_inputs [garbled]) (St_error NO_DATA)).
  - right. right. right. left. reflexivity.
  - reflexivity.
Defined.

Lemma X15_witness :
  process_image sample_loads_more {| all_data := []; log := [] |}
    just_a_number =
    {| all_data := []; log := [St_warning (lit "e.png") TypeError] |}.
Proof.
  exact (X15_scalar_response sample_loads_more
           {| all_data := []; log := [] |} just_a_number (lit "7") (JInt 7)
           eq_refl eq_refl eq_refl I).
Defined.

(** ** More on the response text *)

Lemma strip_prefix_self (p rest : pystr) :
  strip_prefix p (p ++ rest) = Some rest.
Proof.
  induction p as [|a p IH]; simpl; [reflexivity|].
  now rewrite N.eqb_refl.
Qed.

Lemma sub_fences_from_inside (s : pystr) :
  forall bol,
    (forall pre post,
       s = pre ++ FENCE ++ post ->
       (pre = [] -> bol = false) /\
       (forall pre' a, pre = pre' ++ [a] -> a <> NL) /\
       exists b post', post = b :: post' /\ b <> NL) ->
    sub_fences_from bol 0 s = s.
Proof.
  induction s as [|c s IH]; intros bol H; [reflexivity|].
  change (sub_fences_from bol 0 (c :: s)) with
    (match fence_match bol (c :: s) with
     | Some (S k) => sub_fences_from false k s
     | _ => c :: sub_fences_from (N.eqb c NL) 0 s
     end).
  assert (Hm : fence_match bol (c :: s) = None).
  { unfold fence_match.
    destruct (strip_prefix FENCE (c :: s)) as [rest|] eqn:Hp; [|reflexivity].
    apply strip_prefix_eq in Hp.
    destruct (H [] rest Hp) as (Hbol & _ & b & post' & -> & Hb).
    rewrite (Hbol eq_refl). simpl.
    apply N.eqb_neq in Hb. now rewrite Hb. }
  rewrite Hm. f_equal. apply IH. intros pre post Hs.
  destruct (H (c :: pre) post) as (_ & Hlast & Hpost);
    [simpl; now rewrite Hs|].
  split; [|split; [|exact Hpost]].
  - intros ->. apply N.eqb_neq. apply (Hlast [] c). reflexivity.
  - intros pre' a ->. apply (Hlast (c :: pre') a). reflexivity.
Qed.

(** X17: markers inside a line are left alone.  When every run of three
    backticks in the response has a character other than a line feed
    right before it and right after it (as inside a JSON string value),
    the substitution deletes nothing. *)
Theorem X17_inline_markers_are_kept (text : pystr) :
  markers_inside_lines text -> sub_fences text = text.
Proof.
  intros H. apply sub_fences_from_inside. intros pre post Hs.
  destruct (H pre post Hs) as (pre' & a & b & post' & -> & Ha & -> & Hb).
  split; [|split].
  - intros Hnil. now destruct pre'.
  - intros pre'' a' Heq. apply app_inj_tail in Heq as [_ <-]. exact Ha.
  - now exists b, post'.
Qed.

Lemma inside_lines_sound (pre : pystr) :
  forall s bol post,
    inside_lines bol s = true ->
    s = pre ++ FENCE ++ post ->
    (pre = [] -> bol = false) /\
    (forall pre' a, pre = pre' ++ [a] -> a <> NL) /\
    exists b post', post = b :: post' /\ b <> NL.
Proof.
  induction pre as [|c pre IH]; intros s bol post Hs ->.
  - change ([] ++ FENCE ++ post) with (96 :: 96 :: 96 :: post)%N in Hs.
    cbn [inside_lines] in Hs.
    change (96 :: 96 :: 96 :: post)%N with (FENCE ++ post) in Hs.
    rewrite strip_prefix_self in Hs.
    apply andb_true_iff in Hs as [Hs _].
    apply andb_true_iff in Hs as [Hbol Heol].
    split; [|split].
    + intros _. now destruct bol.
    + intros [|x pre'] a; discriminate.
    + destruct post as [|b post']; [discriminate|].
      exists b, post'. split; [reflexivity|].
      simpl in Heol. apply N.eqb_neq. now destruct (N.eqb b NL).
  - change ((c :: pre) ++ FENCE ++ post) with (c :: (pre ++ FENCE ++ post))
      in Hs.
    cbn [inside_lines] in Hs. apply andb_true_iff in Hs as [_ Hs].
    destruct (IH _ _ post Hs eq_refl) as (Hnil & Hlast & Hpost).
    split; [discriminate|]. split; [|exact Hpost].
    intros [|x pre'] a Heq; injection Heq as <- Heq.
    + subst pre. apply N.eqb_neq. now apply Hnil.
    + now apply (Hlast pre').
Qed.

Lemma X17_witness :
  sub_fences (lit "{x: ```y```z}") = lit "{x: ```y```z}".
Proof.
  apply X17_inline_markers_are_kept. intros pre post Hs.
  destruct (inside_lines_sound pre (lit "{x: ```y```z}") true post
              eq_refl Hs) as (Hnil & Hlast & b & post' & -> & Hb).
  destruct pre as [|c pre] using rev_ind.
  - now specialize (Hnil eq_refl).
  - exists pre, c, b, post'. repeat split; auto. now apply (Hlast pre).
Defined.

(** X18: failures before the entry loop.  When the image cannot be opened
    the warning carries that exception, whatever the model would have
    answered; when the request fails it carries the exception of the
    request; a response without text gives [TypeError]; a text that
    [json.loads] rejects gives the decoder's exception.  In each case the
    table is left as it was. *)
Theorem X18_early_failures
  (json_loads : pystr -> result json) (st : state) (img : uploaded_image) :
  let warn e := {| all_data := all_data st;
                   log := log st ++ [St_warning (name img) e] |} in
  match opened img, response_text img with
  | Raise e, _ => process_image json_loads st img = warn e
  | Ok _, Raise e => process_image json_loads st img = warn e
  | Ok _, Ok None => process_image json_loads st img = warn TypeError
  | Ok _, Ok (Some text) =>
      match json_loads (clean_text text) with
      | Raise e => process_image json_loads st img = warn e
      | Ok _ => True
      end
  end.
Proof.
  cbv zeta. unfold process_image, try_body.
  destruct (opened img) as [u|e]; [|reflexivity].
  destruct (response_text img) as [[text|]|e]; try reflexivity.
  now destruct (json_loads (clean_text text)).
Qed.
